(** * Marketplace dashboard: the data pipeline of [marketplace_dashboard.py]

    The script loads one CSV file, computes four KPIs, aggregates a monthly
    time series, draws a seeded sample for a scatter plot and builds three
    chart specifications.  This development embeds that pipeline and proves
    the properties the specification states about it.

    Modelling conventions.
    - A [DataFrame] is the list of its rows, in file order.
    - [job_count] is an [int64] column: arithmetic on it wraps around
      modulo 2^64, as numpy's does.  This is the column pandas builds when
      every cell lies in the signed 64-bit range; a statement that depends
      on the wrap-around says so in a hypothesis.
    - The monetary columns are [float64] in the script; they are idealised
      here as exact rationals ([Q]), so rounding is outside the model.  No
      property below regroups or reorders a sum of amounts.
    - A cell of [published_month] or [country] may be missing ([NaT] /
      [NaN], written [None]); the numeric columns are fully populated.
    - Timestamps are integers (nanoseconds since the epoch).
    - One execution of the script is modelled; [st.cache_data], which
      lets later executions reuse the loaded table, is not. *)

From Stdlib Require Import ZArith QArith Lia Lqa.
From Stdlib Require Import Ascii String DecimalString DecimalZ DecimalPos.
From stdpp Require Import base list sorting gmap strings.

Local Open Scope Z_scope.

(** ** Data model *)

Abbreviation Timestamp := Z (only parsing).

Record Row := {
  published_month : option Timestamp;
  job_count : Z;
  simulated_platform_fee : Q;
  price_gap_abs : Q;
  client_budget_usd : Q;
  country : option string;
  budget_category : string
}.

Abbreviation DataFrame := (list Row) (only parsing).

(** [df.empty] *)
Definition empty (df : DataFrame) : bool :=
  match df with [] => true | _ => false end.

(** ** Columns and reductions *)

Module Int64.
Definition modulus : Z := 18446744073709551616.
Definition half : Z := 9223372036854775808.
Definition min_value : Z := - half.
Definition max_value : Z := half - 1.

(** Two's complement reduction into [min_value, max_value]. *)
Definition wrap (z : Z) : Z := (z + half) mod modulus - half.

Definition add (a b : Z) : Z := wrap (a + b).

Definition in_range (z : Z) : Prop := min_value <= z <= max_value.
End Int64.

(** [Series.sum()] on an [int64] column: the accumulator starts at 0 and
    every addition is an [int64] addition. *)
Definition sum_int64 (col : list Z) : Z := fold_left Int64.add col 0.

(** [Series.sum()] on an amount column. *)
Definition sum_amount (col : list Q) : Q := fold_left Qplus col (0 : Q).

(** The mathematical sum of a list of integers. *)
Definition exact_sum (col : list Z) : Z := foldr Z.add 0 col.

(** Missing cells are dropped ([dropna]). *)
Definition dropna {A} (col : list (option A)) : list A := omap id col.

(** [Series.unique()]: the values in order of first appearance. *)
Fixpoint unique `{EqDecision A} (col : list A) : list A :=
  match col with
  | [] => []
  | x :: rest => x :: filter (fun y => y <> x) (unique rest)
  end.

(** [Series.nunique()]: the number of unique non-missing values. *)
Definition nunique `{EqDecision A} (col : list (option A)) : nat :=
  length (unique (dropna col)).

#[global] Instance Qle_dec : RelDecision Qle :=
  fun x y => decide (Qnum x * QDen y <= Qnum y * QDen x).

(** [Series.median()]: the middle value of the sorted column, the mean of
    the two middle values when the length is even, [NaN] ([None]) on an
    empty column. *)
Definition median (col : list Q) : option Q :=
  let s := merge_sort Qle col in
  let n := length s in
  if Nat.odd n then s !! (n / 2)%nat
  else match s !! (n / 2 - 1)%nat, s !! (n / 2)%nat with
       | Some a, Some b => Some ((a + b) / 2)%Q
       | _, _ => None
       end.

(** The arithmetic mean, for comparison with [median]. *)
Definition mean (col : list Q) : option Q :=
  match col with
  | [] => None
  | _ => Some (sum_amount col / inject_Z (Z.of_nat (length col)))%Q
  end.

(** ** KPIs (script lines 39-42) *)

Definition TOTAL_PROJECTS (my_dashboard_data : DataFrame) : Z :=
  sum_int64 (job_count <$> my_dashboard_data).

Definition TOTAL_CLIENT_COUNTRIES (my_dashboard_data : DataFrame) : nat :=
  nunique (country <$> my_dashboard_data).

Definition AVG_FEE_PER_JOB (my_dashboard_data : DataFrame) : option Q :=
  median (simulated_platform_fee <$> my_dashboard_data).

Definition MEDIAN_FRICTION (my_dashboard_data : DataFrame) : option Q :=
  median (price_gap_abs <$> my_dashboard_data).

(** ** Time-series aggregation (script lines 73-75)

    [groupby('published_month', as_index=False).agg({'job_count': 'sum',
    'simulated_platform_fee': 'sum'})], with pandas' defaults [sort=True]
    and [dropna=True].  Rows are visited in file order; a row whose key is
    missing is skipped, any other row adds its two values to the
    accumulators of its key.  The groups are kept ordered by key. *)

Record AggRow := {
  agg_published_month : Timestamp;
  agg_job_count : Z;
  agg_simulated_platform_fee : Q
}.

Fixpoint agg_add (k : Timestamp) (j : Z) (f : Q) (acc : list AggRow)
  : list AggRow :=
  match acc with
  | [] => [ {| agg_published_month := k;
               agg_job_count := Int64.add 0 j;
               agg_simulated_platform_fee := 0 + f |} ]
  | g :: rest =>
      if k <? agg_published_month g then
        {| agg_published_month := k;
           agg_job_count := Int64.add 0 j;
           agg_simulated_platform_fee := 0 + f |} :: g :: rest
      else if k =? agg_published_month g then
        {| agg_published_month := k;
           agg_job_count := Int64.add (agg_job_count g) j;
           agg_simulated_platform_fee := agg_simulated_platform_fee g + f |}
        :: rest
      else g :: agg_add k j f rest
  end.

Definition agg_step (acc : list AggRow) (r : Row) : list AggRow :=
  match published_month r with
  | None => acc
  | Some k => agg_add k (job_count r) (simulated_platform_fee r) acc
  end.

Definition time_series_data (my_dashboard_data : DataFrame) : list AggRow :=
  fold_left agg_step my_dashboard_data [].

(** The rows of a frame whose month is [k]. *)
Definition rows_of_month (k : Timestamp) (df : DataFrame) : DataFrame :=
  filter (fun r => published_month r = Some k) df.

(** The rows of a frame whose month is present. *)
Definition dated_rows (df : DataFrame) : DataFrame :=
  filter (fun r => is_Some (published_month r)) df.

(** The set of distinct months of a frame. *)
Definition months (df : DataFrame) : gset Timestamp :=
  list_to_set (dropna (published_month <$> df)).

(** ** Exceptions *)

Inductive Exn :=
| FileNotFoundError   (* read_csv on a path that does not exist *)
| ParserError         (* read_csv on a file it cannot read as a table *)
| DateParseError      (* to_datetime on a text it rejects *)
| IndexError          (* iloc[-1] on an empty column *)
| ValueError.         (* sample larger than the population *)

(** ** Sampling (script line 109)

    [DataFrame.sample(n, random_state)] asks a numpy [RandomState] for
    [choice(len(df), size=n, replace=False)], which numpy computes as
    [permutation(len(df))[:n]], and takes the rows at those positions.
    An integer [random_state] builds a fresh generator from that seed;
    without one the process-wide generator is used and advanced.  The
    generator itself (a Mersenne Twister) is an interface here. *)

Class RandomState (rng : Type) := {
  seed_rng : Z -> rng;
  permutation : rng -> nat -> list nat * rng
}.

Class RandomStateLaws (rng : Type) `{RandomState rng} : Prop := {
  permutation_Permutation :
    forall (g : rng) (n : nat), fst (permutation g n) ≡ₚ seq 0 n
}.

(** [df.take(positions)] *)
Definition take_rows {A} (df : list A) (positions : list nat) : list A :=
  omap (fun i => df !! i) positions.

Definition sample `{RandomState rng} {A} (n : nat) (random_state : option Z)
    (df : list A) (np_random : rng) : (Exn + list A) * rng :=
  if (length df <? n)%nat then (inl ValueError, np_random)
  else match random_state with
       | Some seed =>
           let '(p, _) := permutation (seed_rng seed) (length df) in
           (inr (take_rows df (firstn n p)), np_random)
       | None =>
           let '(p, g) := permutation np_random (length df) in
           (inr (take_rows df (firstn n p)), g)
       end.

Definition plot_data_sample `{RandomState rng} (my_dashboard_data : DataFrame)
    (np_random : rng) : (Exn + DataFrame) * rng :=
  sample (Z.to_nat 10000) (Some 42) my_dashboard_data np_random.

(** ** Chart specifications (script lines 78-93, 111-122, 129-138)

    A figure is the declarative request handed to the chart renderer:
    the data, the encoded columns, the scale flags and the axis options.
    Titles, axis labels, templates and marker styles are presentation and
    are left out, as are the page configuration and the column layout. *)

Inductive CategoryOrder := trace | array.

Record XAxis := {
  categoryorder : CategoryOrder;
  categoryarray : list string
}.

Record LineFigure := {
  line_data : list AggRow;
  line_x : string;
  line_y : list string;
  annotation_x : Timestamp;
  annotation_y : Q
}.

Record ScatterFigure := {
  scatter_data : DataFrame;
  scatter_x : string;
  scatter_y : string;
  scatter_color : string;
  scatter_log_x : bool;
  scatter_log_y : bool;
  vline_x : Q
}.

Record BoxFigure := {
  box_data : DataFrame;
  box_x : string;
  box_y : string;
  box_color : string;
  box_log_y : bool;
  box_xaxis : XAxis
}.

(** The categories of the box plot in the order the data presents them:
    one trace per colour value, in order of first appearance. *)
Definition trace_categories (df : DataFrame) : list string :=
  unique (budget_category <$> df).

(** [px.box]: because the x column is also the colour column, plotly
    express hands the renderer the categories in order of first
    appearance. *)
Definition px_box (df : DataFrame) (x y color : string) (log_y : bool)
  : BoxFigure :=
  {| box_data := df; box_x := x; box_y := y; box_color := color;
     box_log_y := log_y;
     box_xaxis := {| categoryorder := array;
                     categoryarray := trace_categories df |} |}.

(** [fig.update_xaxes(categoryorder=..., categoryarray=...)] *)
Definition update_xaxes (o : CategoryOrder) (a : list string)
    (fig : BoxFigure) : BoxFigure :=
  {| box_data := box_data fig; box_x := box_x fig; box_y := box_y fig;
     box_color := box_color fig; box_log_y := box_log_y fig;
     box_xaxis := {| categoryorder := o; categoryarray := a |} |}.

Definition fig_box (my_dashboard_data : DataFrame) : BoxFigure :=
  update_xaxes array
    ["Low Budget"; "Mid Budget"; "High Budget"; "Premium Budget"]
    (px_box my_dashboard_data "budget_category" "price_gap_abs"
       "budget_category" true).

(** The order in which the renderer lays the categories out along the
    axis: with [array], the listed categories first and in the listed
    order, then the categories the list does not mention, in trace order;
    with [trace], the trace order.  This is the layout rule the chart
    library documents for its renderer, which is not part of the
    script. *)
Definition axis_categories (fig : BoxFigure) : list string :=
  match categoryorder (box_xaxis fig) with
  | array =>
      categoryarray (box_xaxis fig) ++
      filter (fun c => c ∉ categoryarray (box_xaxis fig))
             (trace_categories (box_data fig))
  | trace => trace_categories (box_data fig)
  end.

Definition fig_scatter (plot_data_sample : DataFrame) : ScatterFigure :=
  {| scatter_data := plot_data_sample;
     scatter_x := "client_budget_usd"; scatter_y := "price_gap_abs";
     scatter_color := "budget_category";
     scatter_log_x := true; scatter_log_y := true;
     vline_x := 500 |}.

(** [Series.max()] on a non-empty [int64] column. *)
Definition series_max (col : list Z) : Z :=
  match col with
  | [] => 0
  | x :: rest => fold_left Z.max rest x
  end.

(** The line chart; its annotation is pinned to the last month, which
    [iloc[-1]] cannot deliver on an empty aggregate. *)
Definition fig_time (time_series_data : list AggRow) : Exn + LineFigure :=
  match last (agg_published_month <$> time_series_data) with
  | None => inl IndexError
  | Some x =>
      inr {| line_data := time_series_data;
             line_x := "published_month";
             line_y := ["job_count"; "simulated_platform_fee"];
             annotation_x := x;
             annotation_y :=
               (inject_Z (series_max (agg_job_count <$> time_series_data))
                * (9 # 10))%Q |}
  end.

(** ** The file system and the CSV reader

    A path either does not exist or holds a file.  A file is either
    something [read_csv] raises on (a directory, an unreadable or empty
    file, a text that is no table) or a table with the seven required
    columns, as [read_csv] delivers it.  The cells of its
    [published_month] column are still text, and each is given as what
    [pd.to_datetime] makes of it in this column: a blank, a text it
    converts to a date, or a text it rejects (no date at all, or a date
    written in another format than the one inferred for the column).  A
    table that lacks one of the required columns is outside the model. *)

Inductive MonthCell :=
| Blank
| DateText (ts : Timestamp)
| BadText (s : string).

Record RawRow := {
  raw_published_month : MonthCell;
  raw_job_count : Z;
  raw_simulated_platform_fee : Q;
  raw_price_gap_abs : Q;
  raw_client_budget_usd : Q;
  raw_country : option string;
  raw_budget_category : string
}.

Inductive File :=
| NotCsv
| Csv (rows : list RawRow).

Definition os_path_exists (fs : gmap string File) (path : string) : bool :=
  bool_decide (is_Some (fs !! path)).

Definition read_csv (fs : gmap string File) (path : string)
  : Exn + list RawRow :=
  match fs !! path with
  | None => inl FileNotFoundError
  | Some NotCsv => inl ParserError
  | Some (Csv rows) => inr rows
  end.

(** [pd.to_datetime] on one cell: a blank becomes [NaT], a text it
    rejects raises. *)
Definition to_datetime_cell (c : MonthCell) : Exn + option Timestamp :=
  match c with
  | Blank => inr None
  | DateText ts => inr (Some ts)
  | BadText _ => inl DateParseError
  end.

Definition convert_row (r : RawRow) : Exn + Row :=
  match to_datetime_cell (raw_published_month r) with
  | inl e => inl e
  | inr m =>
      inr {| published_month := m;
             job_count := raw_job_count r;
             simulated_platform_fee := raw_simulated_platform_fee r;
             price_gap_abs := raw_price_gap_abs r;
             client_budget_usd := raw_client_budget_usd r;
             country := raw_country r;
             budget_category := raw_budget_category r |}
  end.

(** [df['published_month'] = pd.to_datetime(df['published_month'])] *)
Fixpoint to_datetime (rows : list RawRow) : Exn + DataFrame :=
  match rows with
  | [] => inr []
  | r :: rest =>
      match convert_row r with
      | inl e => inl e
      | inr r' =>
          match to_datetime rest with
          | inl e => inl e
          | inr df => inr (r' :: df)
          end
      end
  end.

(** ** The page and the script monad

    Running the script renders elements onto the page one after the
    other.  A run ends normally, is halted by [st.stop()], or is aborted
    by an exception nobody catches.  The session also holds numpy's
    process-wide generator. *)

Inductive MetricValue :=
| Count (z : Z)
| Amount (q : option Q).

Inductive Figure :=
| Line (f : LineFigure)
| Scatter (f : ScatterFigure)
| Box (f : BoxFigure).

(** The one message the script hands to [st.error]: "Error: Data file not
    found at", followed by the absolute form of the path. *)
Inductive ErrorMessage :=
| DataFileNotFound (path : string).

Inductive Element :=
| Error (msg : ErrorMessage)
| Title
| Header (text : string)
| Subheader (text : string)
| Markdown
| Metric (label : string) (value : MetricValue)
| PlotlyChart (fig : Figure).

Record Session (rng : Type) := {
  rendered : list Element;
  np_random : rng
}.
Arguments rendered {rng} _.
Arguments np_random {rng} _.

Inductive Outcome (A : Type) :=
| Value (a : A)
| Stopped
| Raised (e : Exn).
Arguments Value {A} a.
Arguments Stopped {A}.
Arguments Raised {A} e.

Definition Script (rng A : Type) : Type :=
  Session rng -> Outcome A * Session rng.

Definition ret {rng A} (a : A) : Script rng A := fun s => (Value a, s).

Definition bind {rng A B} (m : Script rng A) (k : A -> Script rng B)
  : Script rng B :=
  fun s =>
    match m s with
    | (Value a, s') => k a s'
    | (Stopped, s') => (Stopped, s')
    | (Raised e, s') => (Raised e, s')
    end.

Declare Scope script_scope.
Delimit Scope script_scope with script.
Notation "x <- m ;; k" := (bind m (fun x => k))
  (at level 100, m at next level, right associativity) : script_scope.
Notation "m ;; k" := (bind m (fun _ => k))
  (at level 100, right associativity) : script_scope.

Definition render {rng} (e : Element) : Script rng unit :=
  fun s => (Value tt, {| rendered := rendered s ++ [e];
                         np_random := np_random s |}).

Definition st_error {rng} (msg : ErrorMessage) : Script rng unit :=
  render (Error msg).

Definition st_metric {rng} (label : string) (v : MetricValue)
  : Script rng unit :=
  render (Metric label v).

Definition st_plotly_chart {rng} (fig : Figure) : Script rng unit :=
  render (PlotlyChart fig).

Definition st_stop {rng A} : Script rng A := fun s => (Stopped, s).

Definition raise {rng A} (e : Exn) : Script rng A := fun s => (Raised e, s).

(** A pure computation that may raise. *)
Definition lift {rng A} (r : Exn + A) : Script rng A :=
  match r with
  | inl e => raise e
  | inr a => ret a
  end.

(** A computation on numpy's process-wide generator that may raise. *)
Definition with_np_random {rng A} (f : rng -> (Exn + A) * rng)
  : Script rng A :=
  fun s =>
    let '(r, g) := f (np_random s) in
    lift r {| rendered := rendered s; np_random := g |}.

(** ** The loader (script lines 21-31) *)

Definition load_data {rng} (fs : gmap string File) (path : string)
  : Script rng DataFrame :=
  (if negb (os_path_exists fs path) then
     st_error (DataFileNotFound path) ;;
     ret []
   else
     df <- lift (read_csv fs path) ;;
     df <- lift (to_datetime df) ;;
     ret df)%script.

(** ** The script, top to bottom *)

Definition main `{RandomState rng} (fs : gmap string File)
    (FILE_PATH : string) : Script rng unit :=
  (my_dashboard_data <- load_data fs FILE_PATH ;;
   if empty my_dashboard_data then st_stop
   else
     render Title ;;
     render Markdown ;;
     render Markdown ;;
     render (Header "1. Overview & Key Metrics") ;;
     st_metric "Total Projects Posted (Demand $\Lambda$)"
       (Count (TOTAL_PROJECTS my_dashboard_data)) ;;
     st_metric "Total Client Countries"
       (Count (Z.of_nat (TOTAL_CLIENT_COUNTRIES my_dashboard_data))) ;;
     st_metric "Median Fee per Match ($\Pi_p$)"
       (Amount (AVG_FEE_PER_JOB my_dashboard_data)) ;;
     st_metric "Median Price Gap (Friction)"
       (Amount (MEDIAN_FRICTION my_dashboard_data)) ;;
     render Markdown ;;
     render
       (Header "2. Market Dynamics: Demand Flow vs. Revenue (Volatility)") ;;
     render Markdown ;;
     fig <- lift (fig_time (time_series_data my_dashboard_data)) ;;
     st_plotly_chart (Line fig) ;;
     render
       (Header
          "3. Matching Efficiency: Finding the Low-Friction Equilibrium") ;;
     render Markdown ;;
     render (Subheader "Client Budget vs. Price Gap (Friction V-Shape)") ;;
     sampled <- with_np_random (plot_data_sample my_dashboard_data) ;;
     st_plotly_chart (Scatter (fig_scatter sampled)) ;;
     render (Subheader "Friction Volatility by Segment") ;;
     st_plotly_chart (Box (fig_box my_dashboard_data)) ;;
     render Markdown)%script.

Definition run `{RandomState rng} (fs : gmap string File)
    (FILE_PATH : string) (g : rng) : Outcome unit * Session rng :=
  main fs FILE_PATH {| rendered := []; np_random := g |}.

(** What the page shows of the analysis: KPI cards and charts. *)
Definition is_kpi_or_chart (e : Element) : bool :=
  match e with
  | Metric _ _ | PlotlyChart _ => true
  | _ => false
  end.

Definition is_error (e : Element) : bool :=
  match e with
  | Error _ => true
  | _ => false
  end.

(** ** Notions the properties are stated with *)

(** The label set of [budget_category]. *)
Definition budget_labels : list string :=
  ["Low Budget"; "Mid Budget"; "High Budget"; "Premium Budget"].

(** [m] is a median of a column when at least half of the values are at
    most [m] and at least half are at least [m]. *)
Definition count_le (m : Q) (col : list Q) : nat :=
  length (filter (fun x => (x <= m)%Q) col).

Definition count_ge (m : Q) (col : list Q) : nat :=
  length (filter (fun x => (m <= x)%Q) col).

Definition is_median (col : list Q) (m : Q) : Prop :=
  (length col <= 2 * count_le m col)%nat /\
  (length col <= 2 * count_ge m col)%nat.

(** Whether a month cell holds a text the conversion rejects. *)
Definition unconvertible (r : RawRow) : Prop :=
  match raw_published_month r with
  | BadText _ => True
  | _ => False
  end.

(** The invariant of the aggregation loop, after the rows [df]. *)
Record agg_invariant (df : DataFrame) (acc : list AggRow) : Prop := {
  inv_sorted : StronglySorted Z.lt (agg_published_month <$> acc);
  inv_keys : forall k, k ∈ (agg_published_month <$> acc) <-> k ∈ months df;
  inv_sums : forall g, g ∈ acc ->
    agg_job_count g
      = sum_int64 (job_count <$> rows_of_month (agg_published_month g) df) /\
    agg_simulated_platform_fee g
      = sum_amount (simulated_platform_fee
                      <$> rows_of_month (agg_published_month g) df)
}.

(** ** A concrete generator

    A linear congruential generator with a selection shuffle.  It is one
    implementation of the [RandomState] interface, on which the sampler
    and the script can be run. *)

Module Lcg.
Definition next (g : Z) : Z := (1103515245 * g + 12345) mod 2147483648.

Fixpoint shuffle (fuel : nat) (pool : list nat) (g : Z) : list nat * Z :=
  match fuel with
  | O => (pool, g)
  | S fuel' =>
      let g' := next g in
      let j := Z.to_nat (g' mod Z.of_nat (length pool)) in
      match pool !! j with
      | None => (pool, g')
      | Some x =>
          let '(rest, g'') := shuffle fuel' (delete j pool) g' in
          (x :: rest, g'')
      end
  end.

#[global] Instance random_state : RandomState Z := {|
  seed_rng := fun seed => seed mod 4294967296;
  permutation := fun g n => shuffle n (seq 0 n) g
|}.
End Lcg.

(** ** Example tables and files *)

Definition example_row (m : option Timestamp) (jobs : Z) (fee : Q)
    (c : string) : Row :=
  {| published_month := m; job_count := jobs;
     simulated_platform_fee := fee; price_gap_abs := fee;
     client_budget_usd := 500; country := Some c;
     budget_category := "Mid Budget" |}.

Definition labelled_row (category : string) : Row :=
  {| published_month := Some 0; job_count := 1;
     simulated_platform_fee := 1; price_gap_abs := 1;
     client_budget_usd := 500; country := Some "US";
     budget_category := category |}.

Definition example_raw_row (m : MonthCell) : RawRow :=
  {| raw_published_month := m; raw_job_count := 1;
     raw_simulated_platform_fee := 1; raw_price_gap_abs := 1;
     raw_client_budget_usd := 500; raw_country := Some "US";
     raw_budget_category := "Mid Budget" |}.

Definition three_projects : DataFrame :=
  [ example_row (Some 0) 10 1 "US";
    example_row (Some 0) 20 1 "US";
    example_row (Some 1) 30 1 "FR" ].

Definition overflowing_projects : DataFrame :=
  [ example_row (Some 0) 4611686018427387904 1 "US";
    example_row (Some 0) 4611686018427387904 1 "US" ].

Definition four_countries : DataFrame :=
  [ example_row (Some 0) 1 1 "US";
    example_row (Some 0) 1 1 "US";
    example_row (Some 0) 1 1 "FR";
    example_row (Some 0) 1 1 "DE" ].

Definition four_fees : DataFrame :=
  [ example_row (Some 0) 1 10 "US";
    example_row (Some 0) 1 20 "US";
    example_row (Some 0) 1 30 "US";
    example_row (Some 0) 1 40 "US" ].

Definition skewed_fees : DataFrame :=
  [ example_row (Some 0) 1 1 "US";
    example_row (Some 0) 1 2 "US";
    example_row (Some 0) 1 30 "US" ].

Definition two_months : DataFrame :=
  [ example_row (Some 2) 5 (3 # 2) "US";
    example_row (Some 1) 7 (1 # 2) "FR";
    example_row None 100 9 "DE";
    example_row (Some 2) 1 (1 # 2) "US" ].

Definition undated_projects : DataFrame :=
  [ example_row (Some 0) 10 1 "US";
    example_row None 5 1 "US" ].

Definition premium_first : DataFrame :=
  [ labelled_row "Premium Budget"; labelled_row "High Budget";
    labelled_row "Low Budget"; labelled_row "Premium Budget" ].

Definition large_table : DataFrame :=
  replicate (Z.to_nat 10000) (example_row (Some 0) 1 1 "US").

Definition no_fs : gmap string File := ∅.

Definition small_fs : gmap string File :=
  {[ "marketplace_dashboard_data.csv" :=
       Csv [ example_raw_row (DateText 0); example_raw_row Blank ] ]}.

Definition blank_months_fs : gmap string File :=
  {[ "marketplace_dashboard_data.csv" := Csv [ example_raw_row Blank ] ]}.

Definition bad_dates_fs : gmap string File :=
  {[ "marketplace_dashboard_data.csv" :=
       Csv [ example_raw_row (DateText 0);
             example_raw_row (BadText "not a date") ] ]}.

(** ** The text of a count card (script lines 58 and 60)

    The two count KPIs are shown through the format [,.0f].  Python
    formats an integer with [f] by converting it to a float first, so the
    card shows the nearest [float64] (ties to even), written out in full
    with a comma between groups of three digits. *)

(** [float(n)]: the integer value of the nearest [float64]. *)
Definition float_of_int (n : Z) : Z :=
  let a := Z.abs n in
  let e := Z.log2 a - 52 in
  if e <=? 0 then n
  else
    let q := a / 2 ^ e in
    let r := a mod 2 ^ e in
    let half := 2 ^ (e - 1) in
    let q' := if (half <? r) || ((r =? half) && Z.odd q) then q + 1 else q in
    Z.sgn n * (q' * 2 ^ e).

(** Thousands separators, on digits listed from the least significant. *)
Fixpoint group_thousands (rev_digits : list ascii) : list ascii :=
  match rev_digits with
  | a :: b :: c :: ((_ :: _) as rest) =>
      a :: b :: c :: ","%char :: group_thousands rest
  | _ => rev_digits
  end.

Definition with_thousands (digits : string) : string :=
  string_of_list_ascii
    (reverse (group_thousands (reverse (list_ascii_of_string digits)))).

(** [f"{n:,.0f}"] *)
Definition format_count (n : Z) : string :=
  match Z.to_int (float_of_int n) with
  | Decimal.Pos d => with_thousands (NilZero.string_of_uint d)
  | Decimal.Neg d =>
      String "-"%char (with_thousands (NilZero.string_of_uint d))
  end.

(** Reading a count back off its card: drop the commas, read the
    decimal number. *)
Definition parse_count (s : string) : option Z :=
  Z.of_int <$>
    NilZero.int_of_string
      (string_of_list_ascii
         (filter (fun c => c <> ","%char) (list_ascii_of_string s))).

(** ** Notions for the properties of the whole script *)

(** The four KPI cards of a table, as the page shows them. *)
Definition kpi_cards (df : DataFrame) : list Element :=
  [ Metric "Total Projects Posted (Demand $\Lambda$)"
      (Count (TOTAL_PROJECTS df));
    Metric "Total Client Countries"
      (Count (Z.of_nat (TOTAL_CLIENT_COUNTRIES df)));
    Metric "Median Fee per Match ($\Pi_p$)" (Amount (AVG_FEE_PER_JOB df));
    Metric "Median Price Gap (Friction)" (Amount (MEDIAN_FRICTION df)) ].

(** The KPI cards and charts of a page, in the order they were rendered. *)
Definition dashboard_elements (page : list Element) : list Element :=
  filter (fun e => is_kpi_or_chart e = true) page.

(** Two KPI amounts are the same: both missing, or equal numbers. *)
Definition same_amount (a b : option Q) : Prop :=
  match a, b with
  | Some x, Some y => (x == y)%Q
  | None, None => True
  | _, _ => False
  end.

#[global] Instance Qlt_dec : RelDecision Qlt :=
  fun x y => decide (Qnum x * QDen y < Qnum y * QDen x).

Definition count_lt (m : Q) (col : list Q) : nat :=
  length (filter (fun x => (x < m)%Q) col).

(** The page as far as the script has rendered it when the line chart is
    about to be built, when the sample is about to be drawn, and at the
    end. *)
Definition page_before_line (df : DataFrame) : list Element :=
  [ Title; Markdown; Markdown; Header "1. Overview & Key Metrics" ]
  ++ kpi_cards df
  ++ [ Markdown;
       Header "2. Market Dynamics: Demand Flow vs. Revenue (Volatility)";
       Markdown ].

Definition page_before_sample (df : DataFrame) (fig : LineFigure)
  : list Element :=
  page_before_line df
  ++ [ PlotlyChart (Line fig);
       Header "3. Matching Efficiency: Finding the Low-Friction Equilibrium";
       Markdown;
       Subheader "Client Budget vs. Price Gap (Friction V-Shape)" ].

Definition page_complete (df : DataFrame) (fig : LineFigure)
    (sampled : DataFrame) : list Element :=
  page_before_sample df fig
  ++ [ PlotlyChart (Scatter (fig_scatter sampled));
       Subheader "Friction Volatility by Segment";
       PlotlyChart (Box (fig_box df));
       Markdown ].

Definition three_projects_swapped : DataFrame :=
  [ example_row (Some 0) 20 1 "US";
    example_row (Some 0) 10 1 "US";
    example_row (Some 1) 30 1 "FR" ].

Definition large_fs : gmap string File :=
  {[ "marketplace_dashboard_data.csv" :=
       Csv (replicate (Z.to_nat 10000) (example_raw_row (DateText 0))) ]}.

Definition header_only_fs : gmap string File :=
  {[ "marketplace_dashboard_data.csv" := Csv [] ]}.

(** * Properties *)

(** ** Integer sums *)

Lemma wrap_in_range (z : Z) : Int64.in_range z -> Int64.wrap z = z.
Proof.
  unfold Int64.in_range, Int64.wrap, Int64.min_value, Int64.max_value,
    Int64.modulus, Int64.half.
  intros Hz. rewrite Z.mod_small; lia.
Qed.

Lemma wrap_add_idemp (a b : Z) :
  Int64.wrap (Int64.wrap a + b) = Int64.wrap (a + b).
Proof.
  unfold Int64.wrap. f_equal.
  replace ((a + Int64.half) mod Int64.modulus - Int64.half + b + Int64.half)
    with ((a + Int64.half) mod Int64.modulus + b) by lia.
  rewrite Zplus_mod_idemp_l. f_equal. lia.
Qed.

Lemma wrap_add_idemp_r (a b : Z) :
  Int64.wrap (a + Int64.wrap b) = Int64.wrap (a + b).
Proof. rewrite (Z.add_comm a), wrap_add_idemp. f_equal. lia. Qed.

Lemma fold_add_wrap (col : list Z) (a : Z) :
  fold_left Int64.add col (Int64.wrap a) = Int64.wrap (a + exact_sum col).
Proof.
  revert a. induction col as [|x col IH]; intros a; simpl.
  - f_equal. lia.
  - unfold Int64.add at 2. rewrite wrap_add_idemp, IH. f_equal. lia.
Qed.

Lemma sum_int64_wrap (col : list Z) :
  sum_int64 col = Int64.wrap (exact_sum col).
Proof.
  unfold sum_int64. change 0 with (Int64.wrap 0) at 1.
  rewrite fold_add_wrap. reflexivity.
Qed.


(** ** Unique values *)

Lemma elem_of_unique `{EqDecision A} (col : list A) (x : A) :
  x ∈ unique col <-> x ∈ col.
Proof.
  induction col as [|y col IH]; simpl; [reflexivity|].
  rewrite !elem_of_cons, list_elem_of_filter, IH.
  destruct (decide (x = y)); tauto.
Qed.

Lemma NoDup_unique `{EqDecision A} (col : list A) : NoDup (unique col).
Proof.
  induction col as [|y col IH]; simpl; constructor.
  - rewrite list_elem_of_filter. tauto.
  - by apply NoDup_filter.
Qed.

Lemma nunique_size `{Countable A} (col : list (option A)) :
  nunique col = size (list_to_set (dropna col) : gset A).
Proof.
  unfold nunique.
  rewrite <- (size_list_to_set (C := gset A) (unique (dropna col)))
    by apply NoDup_unique.
  f_equal. apply set_eq. intros x.
  rewrite !elem_of_list_to_set. apply elem_of_unique.
Qed.

(** ** KPIs *)

Lemma TOTAL_PROJECTS_wrap (df : DataFrame) :
  TOTAL_PROJECTS df = Int64.wrap (exact_sum (job_count <$> df)).
Proof. apply sum_int64_wrap. Qed.

(** C7 (as stated) fails: two rows of 2^62 projects each sum to 2^63,
    which an [int64] cannot hold; the KPI wraps around to -2^63. *)
Lemma total_projects_overflow :
  job_count <$> overflowing_projects
    = [4611686018427387904; 4611686018427387904] /\
  TOTAL_PROJECTS overflowing_projects = -9223372036854775808 /\
  TOTAL_PROJECTS overflowing_projects
    <> exact_sum (job_count <$> overflowing_projects).
Proof. repeat split. vm_compute. discriminate. Qed.

(** C7 (amended). Whenever the mathematical sum of [job_count] over all
    rows lies in the signed 64-bit range, [TOTAL_PROJECTS] is exactly that
    sum. *)
Theorem total_projects_exact_sum (df : DataFrame) :
  Int64.in_range (exact_sum (job_count <$> df)) ->
  TOTAL_PROJECTS df = exact_sum (job_count <$> df).
Proof. intros Hr. rewrite TOTAL_PROJECTS_wrap. by apply wrap_in_range. Qed.

(** Three rows with 10, 20 and 30 projects give 60. *)
Lemma total_projects_three_rows :
  job_count <$> three_projects = [10; 20; 30] /\
  TOTAL_PROJECTS three_projects = 60.
Proof.
  split; [reflexivity|].
  apply (total_projects_exact_sum three_projects).
  vm_compute. split; discriminate.
Defined.

(** C8. [TOTAL_CLIENT_COUNTRIES] is the number of distinct values of the
    [country] column; the countries US, US, FR, DE give 3. *)
Theorem total_client_countries_distinct :
  (forall df : DataFrame,
     TOTAL_CLIENT_COUNTRIES df
       = size (list_to_set (dropna (country <$> df)) : gset string)) /\
  country <$> four_countries = [Some "US"; Some "US"; Some "FR"; Some "DE"] /\
  TOTAL_CLIENT_COUNTRIES four_countries = 3%nat.
Proof.
  split; [|split; reflexivity].
  intros df. apply nunique_size.
Qed.

(** ** Medians *)

#[local] Instance Qle_transitive : Transitive Qle.
Proof. intros x y z. apply Qle_trans. Qed.

#[local] Instance Qle_total : Total Qle.
Proof. intros x y. destruct (Qlt_le_dec x y); [left|right]; lra. Qed.

Lemma length_filter_all {A} (P : A -> Prop) `{forall x, Decision (P x)}
    (l : list A) :
  Forall P l -> length (filter P l) = length l.
Proof.
  induction 1 as [|x l Hx _ IH]; [reflexivity|].
  rewrite filter_cons_True by done. simpl. by rewrite IH.
Qed.

Lemma length_filter_mono {A} (P1 P2 : A -> Prop)
    `{forall x, Decision (P1 x)} `{forall x, Decision (P2 x)} (l : list A) :
  (forall x, P1 x -> P2 x) ->
  (length (filter P1 l) <= length (filter P2 l))%nat.
Proof.
  intros Himp. induction l as [|x l IH]; [reflexivity|].
  destruct (decide (P1 x)) as [H1|H1].
  - rewrite (filter_cons_True P1), (filter_cons_True P2) by auto.
    simpl. lia.
  - rewrite (filter_cons_False P1) by done.
    destruct (decide (P2 x)).
    + rewrite filter_cons_True by done. simpl. lia.
    + rewrite filter_cons_False by done. lia.
Qed.

Lemma count_le_mono (a m : Q) (col : list Q) :
  (a <= m)%Q -> (count_le a col <= count_le m col)%nat.
Proof. intros Ham. apply length_filter_mono. intros x Hx. lra. Qed.

Lemma count_ge_mono (b m : Q) (col : list Q) :
  (m <= b)%Q -> (count_ge b col <= count_ge m col)%nat.
Proof. intros Hmb. apply length_filter_mono. intros x Hx. lra. Qed.

(** In a sorted column the value at position [k] has at least [k + 1]
    values at or below it and all later values at or above it. *)
Lemma sorted_position (s : list Q) (k : nat) (a : Q) :
  StronglySorted Qle s -> s !! k = Some a ->
  (k + 1 <= count_le a s)%nat /\ (length s - k <= count_ge a s)%nat.
Proof.
  intros Hs Hk.
  pose proof (lookup_lt_Some _ _ _ Hk) as Hlt.
  rewrite <- (take_drop_middle s k a Hk) in Hs.
  apply StronglySorted_app in Hs as (Hlo & _ & Hr).
  apply StronglySorted_inv in Hr as [_ Hhi].
  assert (Forall (fun x => (x <= a)%Q) (take k s)) as Hlo'.
  { apply Forall_forall. intros x Hx. apply (Hlo x a Hx). by left. }
  unfold count_le, count_ge.
  rewrite <- (take_drop_middle s k a Hk) at 1 3.
  rewrite !filter_app, !length_app.
  rewrite (filter_cons_True (fun x => (x <= a)%Q)) by apply Qle_refl.
  rewrite (filter_cons_True (fun x => (a <= x)%Q)) by apply Qle_refl.
  rewrite (length_filter_all _ (take k s) Hlo').
  cbn [length].
  rewrite (length_filter_all (fun x => (a <= x)%Q) (drop (S k) s) Hhi).
  rewrite length_take, length_drop. lia.
Qed.

Lemma sorted_lookup_le (s : list Q) (i j : nat) (a b : Q) :
  StronglySorted Qle s -> s !! i = Some a -> s !! j = Some b ->
  (i < j)%nat -> (a <= b)%Q.
Proof.
  intros Hs Hi Hj Hij.
  rewrite <- (take_drop_middle s i a Hi) in Hs.
  apply StronglySorted_app_1_r, StronglySorted_inv in Hs as [_ Hhi].
  rewrite Forall_forall in Hhi. apply Hhi.
  apply list_elem_of_lookup. exists (j - S i)%nat.
  rewrite lookup_drop. rewrite <- Hj. f_equal. lia.
Qed.

Lemma is_median_Permutation (l1 l2 : list Q) (m : Q) :
  l1 ≡ₚ l2 -> is_median l1 m -> is_median l2 m.
Proof.
  intros Hp. unfold is_median, count_le, count_ge. by rewrite Hp.
Qed.

Lemma median_is_median (col : list Q) :
  col <> [] -> exists m, median col = Some m /\ is_median col m.
Proof.
  intros Hne. unfold median.
  pose proof (merge_sort_Permutation Qle col) as Hp.
  pose proof (StronglySorted_merge_sort Qle col) as Hs.
  assert (length (merge_sort Qle col) <> 0)%nat as Hn.
  { rewrite Hp. by destruct col. }
  set (s := merge_sort Qle col) in *. clearbody s.
  set (n := length s) in *.
  destruct (Nat.odd n) eqn:Hodd.
  - destruct (lookup_lt_is_Some_2 s (n / 2)) as [a Ha].
    { apply Nat.div_lt; lia. }
    exists a. split; [done|]. apply (is_median_Permutation s); [done|].
    destruct (sorted_position s _ a Hs Ha) as [Hle Hge].
    apply Nat.odd_spec in Hodd as [h Hh]. fold n in Hge.
    assert (n / 2 = h)%nat as Hdiv.
    { rewrite Hh. symmetry. apply (Nat.div_unique _ 2 h 1); lia. }
    rewrite Hdiv in *. split; lia.
  - assert (Nat.even n = true) as Heven.
    { rewrite <- Nat.negb_odd, Hodd. reflexivity. }
    apply Nat.even_spec in Heven as [h Hh].
    assert (n / 2 = h)%nat as Hdiv.
    { rewrite Hh. symmetry. apply (Nat.div_unique _ 2 h 0); lia. }
    rewrite Hdiv.
    destruct (lookup_lt_is_Some_2 s (h - 1)) as [a Ha]; [lia|].
    destruct (lookup_lt_is_Some_2 s h) as [b Hb]; [lia|].
    rewrite Ha, Hb. exists ((a + b) / 2)%Q. split; [done|].
    apply (is_median_Permutation s); [done|].
    assert (a <= b)%Q as Hab.
    { apply (sorted_lookup_le s (h - 1) h); auto. lia. }
    destruct (sorted_position s _ a Hs Ha) as [Hle _].
    destruct (sorted_position s _ b Hs Hb) as [_ Hge]. fold n in Hge.
    assert (a <= (a + b) / 2)%Q as Hlo.
    { apply Qle_shift_div_l; [reflexivity|]. lra. }
    assert ((a + b) / 2 <= b)%Q as Hhi.
    { apply Qle_shift_div_r; [reflexivity|]. lra. }
    pose proof (count_le_mono a ((a + b) / 2) s Hlo) as H1.
    pose proof (count_ge_mono b ((a + b) / 2) s Hhi) as H2.
    split; lia.
Qed.

(** C4. [AVG_FEE_PER_JOB] is a median of the [simulated_platform_fee]
    column of every non-empty table; for the fees 10, 20, 30, 40 it is 25;
    and it is not the mean: for the fees 1, 2, 30 it is 2 while the mean
    is 11. *)
Theorem avg_fee_per_job_is_median :
  (forall df : DataFrame, df <> [] ->
     exists m, AVG_FEE_PER_JOB df = Some m /\
               is_median (simulated_platform_fee <$> df) m) /\
  (simulated_platform_fee <$> four_fees = [10; 20; 30; 40]%Q /\
   exists m, AVG_FEE_PER_JOB four_fees = Some m /\ (m == 25)%Q) /\
  (simulated_platform_fee <$> skewed_fees = [1; 2; 30]%Q /\
   exists m a, AVG_FEE_PER_JOB skewed_fees = Some m /\
               mean (simulated_platform_fee <$> skewed_fees) = Some a /\
               (m == 2)%Q /\ (a == 11)%Q /\ ~ (m == a)%Q).
Proof.
  split; [|split].
  - intros df Hne. apply median_is_median. by destruct df.
  - split; [reflexivity|]. eexists. split; [vm_compute; reflexivity|].
    reflexivity.
  - split; [reflexivity|]. eexists _, _.
    split; [vm_compute; reflexivity|].
    split; [vm_compute; reflexivity|].
    repeat split; discriminate.
Qed.

(** The median KPI on the four-fee table, through the general statement. *)
Lemma avg_fee_per_job_four_fees :
  exists m, AVG_FEE_PER_JOB four_fees = Some m /\
            is_median (simulated_platform_fee <$> four_fees) m.
Proof.
  apply (proj1 avg_fee_per_job_is_median four_fees). discriminate.
Defined.

(** ** Time-series aggregation *)

Lemma elem_of_agg_add_keys (k : Timestamp) (j : Z) (f : Q)
    (acc : list AggRow) (k' : Timestamp) :
  k' ∈ (agg_published_month <$> agg_add k j f acc)
  <-> k' = k \/ k' ∈ (agg_published_month <$> acc).
Proof.
  induction acc as [|g acc IH]; simpl.
  - rewrite list_elem_of_singleton. rewrite elem_of_nil. tauto.
  - destruct (Z.ltb_spec k (agg_published_month g)) as [Hlt|Hge]; simpl.
    + rewrite !elem_of_cons. tauto.
    + destruct (Z.eqb_spec k (agg_published_month g)) as [Heq|Hne]; simpl.
      * rewrite !elem_of_cons. rewrite <- Heq. tauto.
      * rewrite !elem_of_cons, IH. tauto.
Qed.

Lemma agg_add_sorted (k : Timestamp) (j : Z) (f : Q) (acc : list AggRow) :
  StronglySorted Z.lt (agg_published_month <$> acc) ->
  StronglySorted Z.lt (agg_published_month <$> agg_add k j f acc).
Proof.
  induction acc as [|g acc IH]; simpl; intros Hs.
  - repeat constructor.
  - apply StronglySorted_inv in Hs as [Hs Hall].
    destruct (Z.ltb_spec k (agg_published_month g)) as [Hlt|Hge]; simpl.
    + constructor; [by constructor|].
      constructor; [done|].
      eapply Forall_impl; [exact Hall|]. simpl. intros; lia.
    + destruct (Z.eqb_spec k (agg_published_month g)) as [Heq|Hne]; simpl.
      * constructor; [done|]. by rewrite Heq.
      * constructor; [by apply IH|].
        apply Forall_forall. intros k' Hk'.
        apply elem_of_agg_add_keys in Hk' as [->|Hk']; [lia|].
        rewrite Forall_forall in Hall. by apply Hall.
Qed.

(** What a group of the updated aggregate holds: a group of another month
    is left as it was; the group of month [k] is either new, holding the
    row's values alone, or the old group of month [k] with the row's values
    added. *)
Lemma elem_of_agg_add (k : Timestamp) (j : Z) (f : Q) (acc : list AggRow)
    (g' : AggRow) :
  StronglySorted Z.lt (agg_published_month <$> acc) ->
  g' ∈ agg_add k j f acc ->
  (agg_published_month g' <> k /\ g' ∈ acc) \/
  (agg_published_month g' = k /\
   (k ∉ (agg_published_month <$> acc)) /\
   agg_job_count g' = Int64.add 0 j /\
   agg_simulated_platform_fee g' = (0 + f)%Q) \/
  (agg_published_month g' = k /\
   exists g, g ∈ acc /\ agg_published_month g = k /\
     agg_job_count g' = Int64.add (agg_job_count g) j /\
     agg_simulated_platform_fee g' = (agg_simulated_platform_fee g + f)%Q).
Proof.
  induction acc as [|g acc IH]; simpl; intros Hs.
  - rewrite list_elem_of_singleton. intros ->. simpl.
    right; left. rewrite elem_of_nil. tauto.
  - apply StronglySorted_inv in Hs as [Hs Hall].
    rewrite Forall_forall in Hall.
    assert (forall g0, g0 ∈ acc ->
              agg_published_month g < agg_published_month g0) as Hall'.
    { intros g0 Hg0. apply Hall, list_elem_of_fmap. eauto. }
    destruct (Z.ltb_spec k (agg_published_month g)) as [Hlt|Hge]; simpl.
    + rewrite elem_of_cons. intros [->|Hin]; simpl.
      * right; left. repeat split; try done.
        rewrite elem_of_cons. intros [Hk|Hk]; [lia|].
        apply Hall in Hk. lia.
      * left. split; [|done].
        apply elem_of_cons in Hin as [->|Hin]; [lia|].
        apply Hall' in Hin. lia.
    + destruct (Z.eqb_spec k (agg_published_month g)) as [Heq|Hne]; simpl.
      * rewrite elem_of_cons. intros [->|Hin]; simpl.
        -- right; right. split; [done|]. exists g.
           rewrite elem_of_cons. auto.
        -- left. split; [|rewrite elem_of_cons; auto].
           apply Hall' in Hin. lia.
      * rewrite elem_of_cons. intros [->|Hin].
        -- left. split; [congruence|]. rewrite elem_of_cons. auto.
        -- destruct (IH Hs Hin) as [[H1 H2]|[(H1 & H2 & H3)|(H1 & g0 & H2 & H3)]].
           ++ left. split; [done|]. rewrite elem_of_cons. auto.
           ++ right; left. split; [done|]. split; [|done].
              rewrite elem_of_cons. intros [Hk|Hk]; [congruence|done].
           ++ right; right. split; [done|]. exists g0.
              rewrite elem_of_cons. tauto.
Qed.

Lemma time_series_data_snoc (df : DataFrame) (r : Row) :
  time_series_data (df ++ [r]) = agg_step (time_series_data df) r.
Proof. unfold time_series_data. by rewrite fold_left_app. Qed.

Lemma rows_of_month_snoc (k : Timestamp) (df : DataFrame) (r : Row) :
  rows_of_month k (df ++ [r])
  = rows_of_month k df ++ (if decide (published_month r = Some k)
                           then [r] else []).
Proof.
  unfold rows_of_month. by rewrite filter_app.
Qed.

Lemma elem_of_months (k : Timestamp) (df : DataFrame) :
  k ∈ months df <-> exists r, r ∈ df /\ published_month r = Some k.
Proof.
  unfold months, dropna. rewrite elem_of_list_to_set, list_elem_of_omap.
  split.
  - intros (o & Ho & Hk). apply list_elem_of_fmap in Ho as (r & -> & Hr).
    exists r. split; [done|]. by destruct (published_month r); simplify_eq.
  - intros (r & Hr & Hk). exists (Some k). split; [|done].
    apply list_elem_of_fmap. exists r. by rewrite Hk.
Qed.

Lemma rows_of_month_nil (k : Timestamp) (df : DataFrame) :
  k ∉ months df -> rows_of_month k df = [].
Proof.
  intros Hk. unfold rows_of_month.
  induction df as [|r df IH]; [reflexivity|].
  rewrite filter_cons_False.
  - apply IH. intros Hin. apply Hk. apply elem_of_months.
    apply elem_of_months in Hin as (r' & Hr' & Hm). exists r'.
    rewrite elem_of_cons. auto.
  - intros Hm. apply Hk, elem_of_months. exists r.
    rewrite elem_of_cons. auto.
Qed.

Lemma agg_invariant_step (df : DataFrame) (acc : list AggRow) (r : Row) :
  agg_invariant df acc -> agg_invariant (df ++ [r]) (agg_step acc r).
Proof.
  intros [Hs Hk Hsum]. unfold agg_step.
  destruct (published_month r) as [k|] eqn:Hr.
  - split.
    + by apply agg_add_sorted.
    + intros k'. rewrite elem_of_agg_add_keys, Hk, !elem_of_months.
      split.
      * intros [->|(r' & Hr' & Hm)].
        -- exists r. rewrite elem_of_app, list_elem_of_singleton. auto.
        -- exists r'. rewrite elem_of_app. auto.
      * intros (r' & Hr' & Hm).
        apply elem_of_app in Hr' as [Hr'|Hr'].
        -- right. eauto.
        -- apply list_elem_of_singleton in Hr' as ->. left. congruence.
    + intros g' Hg'. rewrite rows_of_month_snoc, Hr.
      destruct (elem_of_agg_add _ _ _ _ _ Hs Hg')
        as [[Hne Hin]|[(Heq & Hnew & Hj & Hf)|(Heq & g & Hin & Hg & Hj & Hf)]].
      * rewrite decide_False by congruence. rewrite app_nil_r. auto.
      * rewrite decide_True by congruence.
        rewrite rows_of_month_nil.
        2:{ rewrite Heq, <- Hk. done. }
        by rewrite Hj, Hf.
      * rewrite decide_True by congruence.
        destruct (Hsum g Hin) as [Hgj Hgf].
        rewrite Hj, Hf, Hgj, Hgf, Heq, Hg, !fmap_app.
        unfold sum_int64, sum_amount. by rewrite !fold_left_app.
  - split; [done| |].
    + intros k. rewrite Hk, !elem_of_months. split.
      * intros (r' & Hr' & Hm). exists r'. rewrite elem_of_app. auto.
      * intros (r' & Hr' & Hm). exists r'. split; [|done].
        apply elem_of_app in Hr' as [Hr'|Hr']; [done|].
        apply list_elem_of_singleton in Hr' as ->. congruence.
    + intros g Hg. rewrite rows_of_month_snoc, Hr.
      rewrite decide_False by done. rewrite app_nil_r. auto.
Qed.

Lemma time_series_data_invariant (df : DataFrame) :
  agg_invariant df (time_series_data df).
Proof.
  induction df as [|r df IH] using rev_ind.
  - split; simpl.
    + constructor.
    + intros k. unfold months. simpl. set_solver.
    + intros g Hg. by apply elem_of_nil in Hg.
  - rewrite time_series_data_snoc. by apply agg_invariant_step.
Qed.

Example time_series_data_two_months :
  (fun g => (agg_published_month g, agg_job_count g))
    <$> time_series_data two_months
  = [(1, 7); (2, 6)].
Proof. reflexivity. Qed.

Lemma StronglySorted_lt_NoDup (l : list Z) : StronglySorted Z.lt l -> NoDup l.
Proof.
  induction 1 as [|x l _ IH Hall]; constructor; [|done].
  intros Hx. rewrite Forall_forall in Hall. apply Hall in Hx. lia.
Qed.

(** C1 (as stated) fails: two rows of the same month with 2^62 projects
    each sum to 2^63, which an [int64] cannot hold; the month's row holds
    -2^63, not the sum. *)
Lemma time_series_month_overflow :
  published_month <$> overflowing_projects = [Some 0; Some 0] /\
  job_count <$> overflowing_projects
    = [4611686018427387904; 4611686018427387904] /\
  agg_job_count <$> time_series_data overflowing_projects
    = [-9223372036854775808] /\
  agg_job_count <$> time_series_data overflowing_projects
    <> (fun g =>
          exact_sum
            (job_count
               <$> rows_of_month (agg_published_month g) overflowing_projects))
       <$> time_series_data overflowing_projects.
Proof. repeat split. vm_compute. discriminate. Qed.

(** C1 (amended). The time-series aggregate has exactly one row per
    distinct [published_month] of the table, in ascending order of month;
    the row of a month holds the sum of [simulated_platform_fee] over the
    rows of that month, and it holds the mathematical sum of [job_count]
    over those rows whenever that sum lies in the signed 64-bit range. *)
Theorem time_series_one_row_per_month (df : DataFrame) :
  length (time_series_data df) = size (months df) /\
  StronglySorted Z.lt (agg_published_month <$> time_series_data df) /\
  (forall k, k ∈ (agg_published_month <$> time_series_data df)
             <-> k ∈ months df) /\
  (forall g, g ∈ time_series_data df ->
     agg_simulated_platform_fee g
       = sum_amount (simulated_platform_fee
                       <$> rows_of_month (agg_published_month g) df) /\
     (Int64.in_range
        (exact_sum (job_count <$> rows_of_month (agg_published_month g) df)) ->
      agg_job_count g
        = exact_sum (job_count <$> rows_of_month (agg_published_month g) df))).
Proof.
  destruct (time_series_data_invariant df) as [Hs Hk Hsum].
  split; [|split; [done|split; [done|]]].
  - rewrite <- (length_fmap agg_published_month).
    rewrite <- (size_list_to_set (C := gset Timestamp))
      by by apply StronglySorted_lt_NoDup.
    f_equal. apply set_eq. intros k. by rewrite elem_of_list_to_set.
  - intros g Hg. destruct (Hsum g Hg) as [Hj Hf]. split; [done|].
    intros Hr. rewrite Hj, sum_int64_wrap. by apply wrap_in_range.
Qed.

(** The aggregate of the three-row table: two months, with 30 projects
    each. *)
Lemma time_series_one_row_per_month_three_rows :
  length (time_series_data three_projects) = size (months three_projects) /\
  (fun g => (agg_published_month g, agg_job_count g))
    <$> time_series_data three_projects
  = [(0, 30); (1, 30)] /\
  forall g, g ∈ time_series_data three_projects ->
    agg_job_count g
    = exact_sum
        (job_count <$> rows_of_month (agg_published_month g) three_projects).
Proof.
  destruct (time_series_one_row_per_month three_projects)
    as (Hlen & _ & _ & Hrows).
  split; [exact Hlen|]. split; [reflexivity|].
  intros g Hg. destruct (Hrows g Hg) as [_ Hj]. apply Hj.
  change (time_series_data three_projects)
    with [ {| agg_published_month := 0; agg_job_count := 30;
              agg_simulated_platform_fee := (0 + 1 + 1)%Q |};
           {| agg_published_month := 1; agg_job_count := 30;
              agg_simulated_platform_fee := (0 + 1)%Q |} ] in Hg.
  apply elem_of_cons in Hg as [->|Hg];
    [|apply list_elem_of_singleton in Hg as ->];
    vm_compute; split; discriminate.
Defined.

(** ** Totals of the aggregate *)

Lemma exact_sum_app (l1 l2 : list Z) :
  exact_sum (l1 ++ l2) = exact_sum l1 + exact_sum l2.
Proof. induction l1 as [|x l1 IH]; simpl; lia. Qed.

Lemma agg_add_total_jobs (k : Timestamp) (j : Z) (f : Q)
    (acc : list AggRow) :
  Int64.wrap (exact_sum (agg_job_count <$> agg_add k j f acc))
  = Int64.wrap (exact_sum (agg_job_count <$> acc) + j).
Proof.
  induction acc as [|g acc IH]; cbn [agg_add].
  - simpl. unfold Int64.add. rewrite wrap_add_idemp. f_equal. lia.
  - destruct (k <? agg_published_month g);
      [|destruct (k =? agg_published_month g)];
      rewrite !fmap_cons; cbn [exact_sum foldr agg_job_count];
      fold (exact_sum (agg_job_count <$> acc));
      fold (exact_sum (agg_job_count <$> agg_add k j f acc)).
    + unfold Int64.add. rewrite wrap_add_idemp. f_equal. lia.
    + unfold Int64.add. rewrite wrap_add_idemp. f_equal. lia.
    + rewrite <- wrap_add_idemp_r, IH, wrap_add_idemp_r. f_equal. lia.
Qed.

Lemma dated_rows_snoc (df : DataFrame) (r : Row) :
  dated_rows (df ++ [r])
  = dated_rows df ++ (if decide (is_Some (published_month r))
                      then [r] else []).
Proof. unfold dated_rows. by rewrite filter_app. Qed.

(** Grouping by month and summing keeps the project total of the rows
    that have a month. *)
Lemma time_series_total_jobs (df : DataFrame) :
  sum_int64 (agg_job_count <$> time_series_data df)
  = sum_int64 (job_count <$> dated_rows df).
Proof.
  rewrite !sum_int64_wrap.
  induction df as [|r df IH] using rev_ind; [done|].
  rewrite time_series_data_snoc, dated_rows_snoc. unfold agg_step.
  destruct (published_month r) as [k|]; simpl.
  - rewrite agg_add_total_jobs, !fmap_app, exact_sum_app. simpl.
    rewrite <- wrap_add_idemp, IH, wrap_add_idemp. f_equal. lia.
  - by rewrite app_nil_r.
Qed.

Lemma dated_rows_all (df : DataFrame) :
  Forall (fun r => is_Some (published_month r)) df -> dated_rows df = df.
Proof.
  unfold dated_rows. induction 1 as [|r df Hr _ IH]; [reflexivity|].
  rewrite filter_cons_True by done. by rewrite IH.
Qed.

(** C10 (as stated) fails: a row without a month counts in the KPI but
    belongs to no monthly group. *)
Lemma time_series_drops_undated_rows :
  published_month <$> undated_projects = [Some 0; None] /\
  sum_int64 (agg_job_count <$> time_series_data undated_projects) = 10 /\
  TOTAL_PROJECTS undated_projects = 15 /\
  sum_int64 (agg_job_count <$> time_series_data undated_projects)
    <> TOTAL_PROJECTS undated_projects.
Proof. repeat split. vm_compute. discriminate. Qed.

(** C10 (amended). When every row has a month, the monthly [job_count]
    sums add up to [TOTAL_PROJECTS]. *)
Theorem time_series_preserves_totals (df : DataFrame) :
  Forall (fun r => is_Some (published_month r)) df ->
  sum_int64 (agg_job_count <$> time_series_data df) = TOTAL_PROJECTS df.
Proof.
  intros Hall. rewrite time_series_total_jobs.
  by rewrite (dated_rows_all df Hall).
Qed.

(** The project totals of a three-row, two-month table. *)
Lemma time_series_preserves_totals_three_rows :
  sum_int64 (agg_job_count <$> time_series_data three_projects)
    = TOTAL_PROJECTS three_projects /\
  TOTAL_PROJECTS three_projects = 60.
Proof.
  split; [|reflexivity].
  apply (time_series_preserves_totals three_projects).
  repeat constructor; simpl; eauto.
Defined.

(** ** The sampler *)

Lemma shuffle_Permutation (fuel : nat) (pool : list nat) (g : Z) :
  fst (Lcg.shuffle fuel pool g) ≡ₚ pool.
Proof.
  revert pool g. induction fuel as [|fuel IH]; intros pool g; simpl.
  - reflexivity.
  - destruct (pool !! _) as [x|] eqn:Hx; [|reflexivity].
    specialize (IH (delete (Z.to_nat (Lcg.next g
                      mod Z.of_nat (length pool))) pool) (Lcg.next g)).
    destruct (Lcg.shuffle fuel _ _) as [rest g'']. simpl in *.
    rewrite IH. symmetry. by apply delete_Permutation.
Qed.

#[global] Instance lcg_laws : RandomStateLaws Z.
Proof. split. intros g n. apply shuffle_Permutation. Qed.

Lemma take_rows_Forall2 {A} (df : list A) (positions : list nat) :
  Forall (fun i => (i < length df)%nat) positions ->
  Forall2 (fun i r => df !! i = Some r) positions (take_rows df positions).
Proof.
  unfold take_rows. induction 1 as [|i positions Hi _ IH]; simpl.
  - constructor.
  - destruct (lookup_lt_is_Some_2 df i Hi) as [r Hr]. rewrite Hr. simpl.
    by constructor.
Qed.

Lemma permutation_firstn `{RandomStateLaws rng} (g : rng) (n m : nat) :
  (n <= m)%nat ->
  let positions := firstn n (fst (permutation g m)) in
  length positions = n /\ NoDup positions /\
  Forall (fun i => (i < m)%nat) positions.
Proof.
  intros Hnm. pose proof (permutation_Permutation g m) as Hp.
  set (p := fst (permutation g m)) in *. simpl.
  assert (length p = m) as Hlen by by rewrite Hp, length_seq.
  split; [rewrite length_take; lia|]. split.
  - assert (NoDup (take n p ++ drop n p)) as Hnd.
    { rewrite take_drop, Hp. apply NoDup_seq. }
    by apply NoDup_app in Hnd as [Hnd _].
  - apply Forall_take. rewrite Hp. apply Forall_forall.
    intros i Hi. apply elem_of_seq in Hi. lia.
Qed.

Lemma plot_data_sample_seeded `{RandomState rng} (df : DataFrame) (g : rng) :
  plot_data_sample df g
  = (if (length df <? Z.to_nat 10000)%nat then inl ValueError
     else inr (take_rows df
                 (firstn (Z.to_nat 10000)
                    (fst (permutation (seed_rng 42) (length df))))),
     g).
Proof.
  unfold plot_data_sample, sample.
  destruct (length df <? Z.to_nat 10000)%nat; [reflexivity|].
  by destruct (permutation (seed_rng 42) (length df)).
Qed.

(** C5. On a table of at least 10,000 rows the sampler returns the rows
    found at 10,000 distinct positions of the table; on a table of fewer
    than 10,000 rows it raises (the sample size is not clamped). *)
Theorem plot_data_sample_size `{RandomStateLaws rng} (df : DataFrame)
    (g : rng) :
  ((Z.to_nat 10000 <= length df)%nat ->
   exists positions sampled,
     fst (plot_data_sample df g) = inr sampled /\
     length positions = Z.to_nat 10000 /\
     length sampled = Z.to_nat 10000 /\
     NoDup positions /\
     Forall2 (fun i r => df !! i = Some r) positions sampled) /\
  ((length df < Z.to_nat 10000)%nat ->
   fst (plot_data_sample df g) = inl ValueError).
Proof.
  rewrite plot_data_sample_seeded. simpl. split; intros Hlen.
  - destruct (Nat.ltb_spec (length df) (Z.to_nat 10000)) as [Hlt|_]; [lia|].
    destruct (permutation_firstn (seed_rng 42) _ _ Hlen)
      as (Hn & Hnd & Hall).
    pose proof (take_rows_Forall2 df _ Hall) as Hrows.
    eexists _, _. split; [reflexivity|].
    split; [exact Hn|]. split; [|by split].
    by rewrite <- (Forall2_length _ _ _ Hrows).
  - destruct (Nat.ltb_spec (length df) (Z.to_nat 10000)) as [_|Hge];
      [reflexivity|lia].
Qed.

(** The sampler on a table of exactly 10,000 rows, with the linear
    congruential generator. *)
Lemma plot_data_sample_size_large_table :
  exists positions sampled,
    fst (plot_data_sample large_table 0) = inr sampled /\
    length positions = Z.to_nat 10000 /\
    length sampled = Z.to_nat 10000 /\
    NoDup positions /\
    Forall2 (fun i r => large_table !! i = Some r) positions sampled.
Proof.
  apply (proj1 (plot_data_sample_size (rng := Z) large_table 0)).
  unfold large_table. rewrite length_replicate. lia.
Defined.

(** C6. The sample depends on the table alone: whatever the state of the
    process-wide generator, sampling the same table with the seed 42
    yields the same rows and leaves that generator as it was; the rows are
    those an unseeded draw takes from a generator freshly seeded with 42. *)
Theorem plot_data_sample_deterministic `{RandomState rng} (df : DataFrame)
    (g1 g2 : rng) :
  fst (plot_data_sample df g1) = fst (plot_data_sample df g2) /\
  snd (plot_data_sample df g1) = g1 /\
  fst (plot_data_sample df g1)
    = fst (sample (Z.to_nat 10000) None df (seed_rng 42)).
Proof.
  rewrite !plot_data_sample_seeded. split; [done|]. split; [done|].
  unfold sample. simpl.
  destruct (length df <? Z.to_nat 10000)%nat; [done|].
  by destruct (permutation (seed_rng 42) (length df)).
Qed.

Example unseeded_sample_depends_on_generator :
  fst (sample 2 None [10; 20; 30; 40] (1 : Z))
  <> fst (sample 2 None [10; 20; 30; 40] (2 : Z)).
Proof. vm_compute. discriminate. Qed.

(** ** The box plot *)

Lemma filter_none {A} (P : A -> Prop) `{forall x, Decision (P x)}
    (l : list A) :
  Forall (fun x => ~ P x) l -> filter P l = [].
Proof.
  induction 1 as [|x l Hx _ IH]; [reflexivity|].
  by rewrite filter_cons_False.
Qed.

Lemma axis_categories_fig_box (df : DataFrame) :
  axis_categories (fig_box df)
  = budget_labels ++ filter (fun c => c ∉ budget_labels) (trace_categories df).
Proof. reflexivity. Qed.

(** C9. Whatever the table, the box plot asks for the category order
    Low, Mid, High, Premium: the axis lists these four first and in this
    order, followed only by categories outside the four labels; when the
    table uses the four labels alone, they are the whole axis. *)
Theorem fig_box_category_order (df : DataFrame) :
  box_xaxis (fig_box df)
    = {| categoryorder := array;
         categoryarray := ["Low Budget"; "Mid Budget"; "High Budget";
                           "Premium Budget"] |} /\
  (exists extras,
     axis_categories (fig_box df)
       = ["Low Budget"; "Mid Budget"; "High Budget"; "Premium Budget"]
         ++ extras /\
     Forall (fun c => c ∉ budget_labels) extras) /\
  (Forall (fun r => budget_category r ∈ budget_labels) df ->
   axis_categories (fig_box df)
     = ["Low Budget"; "Mid Budget"; "High Budget"; "Premium Budget"]).
Proof.
  split; [reflexivity|]. rewrite axis_categories_fig_box. split.
  - eexists. split; [reflexivity|].
    apply Forall_forall. intros c Hc.
    by apply list_elem_of_filter in Hc as [Hc _].
  - intros Hall. rewrite filter_none; [apply app_nil_r|].
    apply Forall_forall. intros c Hc Hnot. apply Hnot.
    apply elem_of_unique, list_elem_of_fmap in Hc as (r & -> & Hr).
    rewrite Forall_forall in Hall. by apply Hall.
Qed.

(** A table whose first category is Premium: the data order is Premium,
    High, Low; the axis order is Low, Mid, High, Premium. *)
Lemma fig_box_category_order_premium_first :
  trace_categories premium_first
    = ["Premium Budget"; "High Budget"; "Low Budget"] /\
  axis_categories (fig_box premium_first)
    = ["Low Budget"; "Mid Budget"; "High Budget"; "Premium Budget"].
Proof.
  split; [reflexivity|].
  apply (proj2 (proj2 (fig_box_category_order premium_first))).
  unfold premium_first, budget_labels. repeat constructor.
Defined.

(** ** The loader and the run *)

Lemma os_path_exists_false (fs : gmap string File) (path : string) :
  os_path_exists fs path = false <-> fs !! path = None.
Proof.
  unfold os_path_exists. rewrite bool_decide_eq_false.
  rewrite <- eq_None_not_Some. reflexivity.
Qed.

Lemma to_datetime_unconvertible (rows : list RawRow) :
  Exists unconvertible rows -> to_datetime rows = inl DateParseError.
Proof.
  induction rows as [|r rows IH]; intros Hex; [by inv Hex|].
  simpl. unfold convert_row.
  inversion Hex as [? ? Hhd|? ? Htl]; subst.
  - unfold unconvertible in Hhd.
    by destruct (raw_published_month r).
  - destruct (raw_published_month r); simpl; by rewrite ?IH.
Qed.

(** C3. When the path does not exist, the run renders the error message
    and nothing else, and is halted by [st.stop()]: no KPI, no chart, no
    exception. *)
Theorem run_missing_file `{RandomState rng} (fs : gmap string File)
    (FILE_PATH : string) (g : rng) :
  os_path_exists fs FILE_PATH = false ->
  fst (run fs FILE_PATH g) = Stopped /\
  rendered (snd (run fs FILE_PATH g))
    = [Error (DataFileNotFound FILE_PATH)] /\
  filter (fun e => is_kpi_or_chart e = true)
         (rendered (snd (run fs FILE_PATH g))) = [].
Proof.
  intros Hno. unfold run, main, load_data, bind. rewrite Hno. simpl.
  done.
Qed.

(** A run on an empty file system. *)
Lemma run_missing_file_no_fs :
  fst (run no_fs "marketplace_dashboard_data.csv" (0 : Z)) = Stopped /\
  rendered (snd (run no_fs "marketplace_dashboard_data.csv" (0 : Z)))
    = [Error (DataFileNotFound "marketplace_dashboard_data.csv")] /\
  filter (fun e => is_kpi_or_chart e = true)
         (rendered (snd (run no_fs "marketplace_dashboard_data.csv" (0 : Z))))
    = [].
Proof.
  apply (run_missing_file no_fs "marketplace_dashboard_data.csv" (0 : Z)).
  reflexivity.
Defined.

(** C2 (as stated) fails: on a file whose second month is not a date the
    run is aborted by the conversion's exception, which nothing catches,
    and no error message is rendered. *)
Lemma run_bad_dates_raises :
  os_path_exists bad_dates_fs "marketplace_dashboard_data.csv" = true /\
  fst (run bad_dates_fs "marketplace_dashboard_data.csv" (0 : Z))
    = Raised DateParseError /\
  rendered (snd (run bad_dates_fs "marketplace_dashboard_data.csv" (0 : Z)))
    = [] /\
  ~ ((forall e,
        fst (run bad_dates_fs "marketplace_dashboard_data.csv" (0 : Z))
          <> Raised e) /\
     Exists (fun e => is_error e = true)
       (rendered
          (snd (run bad_dates_fs "marketplace_dashboard_data.csv" (0 : Z))))).
Proof.
  split; [reflexivity|]. split; [reflexivity|]. split; [reflexivity|].
  intros [Hno _]. by apply (Hno DateParseError).
Qed.

(** C2 (amended). When the file exists and a cell of its
    [published_month] column is not a date, the conversion's exception
    leaves [load_data] uncaught and aborts the run: nothing is rendered,
    neither an error message nor a KPI nor a chart. *)
Theorem run_unconvertible_dates `{RandomState rng} (fs : gmap string File)
    (FILE_PATH : string) (rows : list RawRow) (g : rng) :
  fs !! FILE_PATH = Some (Csv rows) ->
  Exists unconvertible rows ->
  fst (run fs FILE_PATH g) = Raised DateParseError /\
  rendered (snd (run fs FILE_PATH g)) = [].
Proof.
  intros Hfile Hbad. unfold run, main, load_data, bind, os_path_exists.
  rewrite bool_decide_eq_true_2 by (rewrite Hfile; eauto).
  unfold read_csv. rewrite Hfile. simpl.
  rewrite (to_datetime_unconvertible rows Hbad). simpl. done.
Qed.

(** The run on the file with a bad date, through the general statement. *)
Lemma run_unconvertible_dates_bad_dates_fs :
  fst (run bad_dates_fs "marketplace_dashboard_data.csv" (0 : Z))
    = Raised DateParseError /\
  rendered (snd (run bad_dates_fs "marketplace_dashboard_data.csv" (0 : Z)))
    = [].
Proof.
  apply (run_unconvertible_dates bad_dates_fs
           "marketplace_dashboard_data.csv"
           [ example_raw_row (DateText 0);
             example_raw_row (BadText "not a date") ] (0 : Z)).
  - reflexivity.
  - apply Exists_cons_tl, Exists_cons_hd. exact I.
Defined.

(** A file of two rows loads and its KPIs and line chart are rendered;
    the run then stops at the sampler, which cannot draw 10,000 rows. *)
Example run_small_file :
  fst (run small_fs "marketplace_dashboard_data.csv" (0 : Z))
    = Raised ValueError /\
  length (filter (fun e => is_kpi_or_chart e = true)
            (rendered
               (snd (run small_fs "marketplace_dashboard_data.csv" (0 : Z)))))
    = 5%nat.
Proof. split; vm_compute; reflexivity. Qed.

(** A file whose months are all blank yields an empty aggregate, on which
    the annotation of the line chart has no last month to point at. *)
Example run_blank_months :
  fst (run blank_months_fs "marketplace_dashboard_data.csv" (0 : Z))
    = Raised IndexError.
Proof. vm_compute. reflexivity. Qed.

(** What a run renders, and how it ends, does not depend on the state of
    the process-wide generator. *)
Lemma run_deterministic `{RandomState rng} (fs : gmap string File)
    (FILE_PATH : string) (g1 g2 : rng) :
  fst (run fs FILE_PATH g1) = fst (run fs FILE_PATH g2) /\
  rendered (snd (run fs FILE_PATH g1)) = rendered (snd (run fs FILE_PATH g2)).
Proof.
  unfold run, main, load_data, bind.
  destruct (os_path_exists fs FILE_PATH); simpl; [|done].
  destruct (read_csv fs FILE_PATH) as [e|rows]; simpl; [done|].
  destruct (to_datetime rows) as [e|df]; simpl; [done|].
  destruct (empty df); simpl; [done|].
  destruct (fig_time (time_series_data df)) as [e|fig]; simpl; [done|].
  unfold with_np_random. simpl. rewrite !plot_data_sample_seeded.
  destruct (length df <? Z.to_nat 10000)%nat; simpl; done.
Qed.

(** * Further properties of the script *)

(** ** The loader *)

Lemma to_datetime_length (rows : list RawRow) (df : DataFrame) :
  to_datetime rows = inr df -> length df = length rows.
Proof.
  revert df. induction rows as [|raw rows IH]; simpl; intros df Hdf.
  - by simplify_eq.
  - destruct (convert_row raw) as [e|r]; [done|].
    destruct (to_datetime rows) as [e|df']; [done|].
    simplify_eq. simpl. f_equal. by apply IH.
Qed.

Lemma to_datetime_failure (rows : list RawRow) (e : Exn) :
  to_datetime rows = inl e -> Exists unconvertible rows /\ e = DateParseError.
Proof.
  induction rows as [|raw rows IH]; simpl; [done|].
  unfold convert_row.
  destruct (raw_published_month raw) eqn:Hm; simpl.
  - destruct (to_datetime rows) as [e'|df]; [|done].
    intros He. simplify_eq. destruct (IH eq_refl) as [Hex He].
    split; [by apply Exists_cons_tl|done].
  - destruct (to_datetime rows) as [e'|df]; [|done].
    intros He. simplify_eq. destruct (IH eq_refl) as [Hex He].
    split; [by apply Exists_cons_tl|done].
  - intros He. simplify_eq. split; [|done].
    apply Exists_cons_hd. unfold unconvertible. by rewrite Hm.
Qed.

(** ** How a run ends *)

Lemma time_series_data_nil (df : DataFrame) :
  time_series_data df = [] <-> Forall (fun r => published_month r = None) df.
Proof.
  destruct (time_series_data_invariant df) as [_ Hk _].
  rewrite Forall_forall. split.
  - intros Hnil r Hr. destruct (published_month r) as [k|] eqn:Hm; [|done].
    assert (k ∈ months df) as Hin by (apply elem_of_months; eauto).
    apply Hk in Hin. rewrite Hnil in Hin. by apply elem_of_nil in Hin.
  - intros Hall. destruct (time_series_data df) as [|g ts]; [done|].
    assert (agg_published_month g ∈ months df) as Hin.
    { apply Hk. rewrite fmap_cons. apply list_elem_of_here. }
    apply elem_of_months in Hin as (r & Hr & Hm).
    rewrite (Hall r Hr) in Hm. discriminate.
Qed.

Lemma fig_time_error (ts : list AggRow) :
  (fig_time ts = inl IndexError <-> ts = []) /\
  (forall e, fig_time ts = inl e -> e = IndexError).
Proof.
  unfold fig_time.
  destruct (last (agg_published_month <$> ts)) as [x|] eqn:Hlast.
  - split; [|done]. split; [done|]. intros ->. discriminate.
  - split; [|congruence]. split; [|done]. intros _.
    apply last_None, fmap_nil_inv in Hlast. done.
Qed.

Lemma run_loaded `{RandomState rng} (fs : gmap string File)
    (FILE_PATH : string) (rows : list RawRow) (df : DataFrame) (g : rng) :
  fs !! FILE_PATH = Some (Csv rows) ->
  to_datetime rows = inr df ->
  df <> [] ->
  run fs FILE_PATH g =
    match fig_time (time_series_data df) with
    | inl e =>
        (Raised e, {| rendered := page_before_line df; np_random := g |})
    | inr fig =>
        if (length df <? Z.to_nat 10000)%nat then
          (Raised ValueError,
           {| rendered := page_before_sample df fig; np_random := g |})
        else
          (Value tt,
           {| rendered :=
                page_complete df fig
                  (take_rows df
                     (firstn (Z.to_nat 10000)
                        (fst (permutation (seed_rng 42) (length df)))));
              np_random := g |})
    end.
Proof.
  intros Hfile Hdf Hne. unfold run, main, load_data, bind, os_path_exists.
  rewrite bool_decide_eq_true_2 by (rewrite Hfile; eauto).
  unfold read_csv. rewrite Hfile. simpl. rewrite Hdf. simpl.
  assert (empty df = false) as -> by by destruct df.
  destruct (fig_time (time_series_data df)) as [e|fig]; simpl;
    [reflexivity|].
  unfold with_np_random. simpl. rewrite plot_data_sample_seeded.
  destruct (length df <? Z.to_nat 10000)%nat; reflexivity.
Qed.

Lemma run_absent `{RandomState rng} (fs : gmap string File)
    (FILE_PATH : string) (g : rng) :
  fs !! FILE_PATH = None ->
  run fs FILE_PATH g
  = (Stopped, {| rendered := [Error (DataFileNotFound FILE_PATH)];
                 np_random := g |}).
Proof.
  intros Hfile. apply os_path_exists_false in Hfile.
  unfold run, main, load_data, bind. by rewrite Hfile.
Qed.

Lemma run_not_csv `{RandomState rng} (fs : gmap string File)
    (FILE_PATH : string) (g : rng) :
  fs !! FILE_PATH = Some NotCsv ->
  run fs FILE_PATH g
  = (Raised ParserError, {| rendered := []; np_random := g |}).
Proof.
  intros Hfile. unfold run, main, load_data, bind, os_path_exists.
  rewrite bool_decide_eq_true_2 by (rewrite Hfile; eauto).
  unfold read_csv. by rewrite Hfile.
Qed.

Lemma run_conversion_error `{RandomState rng} (fs : gmap string File)
    (FILE_PATH : string) (rows : list RawRow) (e : Exn) (g : rng) :
  fs !! FILE_PATH = Some (Csv rows) ->
  to_datetime rows = inl e ->
  run fs FILE_PATH g = (Raised e, {| rendered := []; np_random := g |}).
Proof.
  intros Hfile He. unfold run, main, load_data, bind, os_path_exists.
  rewrite bool_decide_eq_true_2 by (rewrite Hfile; eauto).
  unfold read_csv. rewrite Hfile. simpl. by rewrite He.
Qed.

Lemma run_no_rows `{RandomState rng} (fs : gmap string File)
    (FILE_PATH : string) (rows : list RawRow) (g : rng) :
  fs !! FILE_PATH = Some (Csv rows) ->
  to_datetime rows = inr [] ->
  run fs FILE_PATH g = (Stopped, {| rendered := []; np_random := g |}).
Proof.
  intros Hfile He. unfold run, main, load_data, bind, os_path_exists.
  rewrite bool_decide_eq_true_2 by (rewrite Hfile; eauto).
  unfold read_csv. rewrite Hfile. simpl. by rewrite He.
Qed.

(** Every way a run can end, with the page it leaves. *)
Lemma run_cases `{RandomState rng} (fs : gmap string File)
    (FILE_PATH : string) (g : rng) :
  (fs !! FILE_PATH = None /\
   run fs FILE_PATH g
   = (Stopped, {| rendered := [Error (DataFileNotFound FILE_PATH)];
                  np_random := g |})) \/
  (fs !! FILE_PATH = Some NotCsv /\
   run fs FILE_PATH g
   = (Raised ParserError, {| rendered := []; np_random := g |})) \/
  (exists rows,
     fs !! FILE_PATH = Some (Csv rows) /\ Exists unconvertible rows /\
     run fs FILE_PATH g
     = (Raised DateParseError, {| rendered := []; np_random := g |})) \/
  (fs !! FILE_PATH = Some (Csv []) /\
   run fs FILE_PATH g = (Stopped, {| rendered := []; np_random := g |})) \/
  (exists rows df,
     fs !! FILE_PATH = Some (Csv rows) /\ to_datetime rows = inr df /\
     df <> [] /\ Forall (fun r => published_month r = None) df /\
     run fs FILE_PATH g
     = (Raised IndexError,
        {| rendered := page_before_line df; np_random := g |})) \/
  (exists rows df fig,
     fs !! FILE_PATH = Some (Csv rows) /\ to_datetime rows = inr df /\
     fig_time (time_series_data df) = inr fig /\
     (length df < Z.to_nat 10000)%nat /\
     run fs FILE_PATH g
     = (Raised ValueError,
        {| rendered := page_before_sample df fig; np_random := g |})) \/
  (exists rows df fig,
     fs !! FILE_PATH = Some (Csv rows) /\ to_datetime rows = inr df /\
     fig_time (time_series_data df) = inr fig /\
     (Z.to_nat 10000 <= length df)%nat /\
     run fs FILE_PATH g
     = (Value tt,
        {| rendered :=
             page_complete df fig
               (take_rows df
                  (firstn (Z.to_nat 10000)
                     (fst (permutation (seed_rng 42) (length df)))));
           np_random := g |})).
Proof.
  destruct (fs !! FILE_PATH) as [[|rows]|] eqn:Hfile.
  - right; left. split; [done|]. by apply run_not_csv.
  - destruct (to_datetime rows) as [e|df] eqn:Hdf.
    + destruct (to_datetime_failure rows e Hdf) as [Hex ->].
      do 2 right; left. exists rows.
      split; [done|]. split; [done|].
      by apply (run_conversion_error fs FILE_PATH rows).
    + destruct (decide (df = [])) as [->|Hne].
      * assert (rows = []) as ->.
        { apply to_datetime_length in Hdf. by destruct rows. }
        do 3 right; left. split; [done|].
        apply (run_no_rows fs FILE_PATH [] g Hfile Hdf).
      * rewrite (run_loaded fs FILE_PATH rows df g Hfile Hdf Hne).
        destruct (fig_time (time_series_data df)) as [e|fig] eqn:Hfig.
        -- destruct (fig_time_error (time_series_data df)) as [Hnil Herr].
           pose proof (Herr e Hfig) as ->.
           do 4 right; left. exists rows, df.
           split; [done|]. split; [done|]. split; [done|].
           split; [|done]. by apply time_series_data_nil, Hnil.
        -- destruct (Nat.ltb_spec (length df) (Z.to_nat 10000)).
           ++ do 5 right; left. by exists rows, df, fig.
           ++ do 6 right. by exists rows, df, fig.
  - left. split; [done|]. by apply run_absent.
Qed.

Lemma fig_time_dated (df : DataFrame) :
  Exists (fun r => is_Some (published_month r)) df ->
  exists fig, fig_time (time_series_data df) = inr fig.
Proof.
  intros Hex. destruct (fig_time (time_series_data df)) as [e|fig] eqn:Hfig;
    [|by eexists].
  destruct (fig_time_error (time_series_data df)) as [Hnil Herr].
  rewrite (Herr e Hfig) in Hfig. apply Hnil, time_series_data_nil in Hfig.
  apply Exists_exists in Hex as (r & Hr & [k Hk]).
  rewrite Forall_forall in Hfig. rewrite (Hfig r Hr) in Hk. discriminate.
Qed.

Lemma fig_time_dated_inv (df : DataFrame) (fig : LineFigure) :
  fig_time (time_series_data df) = inr fig ->
  Exists (fun r => is_Some (published_month r)) df.
Proof.
  intros Hfig. destruct (time_series_data_invariant df) as [_ Hk _].
  destruct (time_series_data df) as [|g ts]; [discriminate Hfig|].
  assert (agg_published_month g ∈ months df) as Hin.
  { apply Hk. rewrite fmap_cons. apply list_elem_of_here. }
  apply elem_of_months in Hin as (r & Hr & Hm).
  apply Exists_exists. exists r. split; [done|]. rewrite Hm. eauto.
Qed.

Lemma dashboard_elements_complete (df : DataFrame) (fig : LineFigure)
    (sampled : DataFrame) :
  dashboard_elements (page_complete df fig sampled)
  = kpi_cards df
    ++ [ PlotlyChart (Line fig);
         PlotlyChart (Scatter (fig_scatter sampled));
         PlotlyChart (Box (fig_box df)) ].
Proof. reflexivity. Qed.

(** X3. A run ends normally only on a table of at least 10,000 rows with
    a month in at least one row: whenever the run reaches its end, the
    file exists, its month cells all converted, and the loaded table has
    these two properties. *)
Theorem run_completes_only_if `{RandomState rng} (fs : gmap string File)
    (FILE_PATH : string) (g : rng) :
  fst (run fs FILE_PATH g) = Value tt ->
  exists rows df,
    fs !! FILE_PATH = Some (Csv rows) /\
    to_datetime rows = inr df /\
    (Z.to_nat 10000 <= length df)%nat /\
    Exists (fun r => is_Some (published_month r)) df.
Proof.
  intros Hend.
  destruct (run_cases fs FILE_PATH g)
    as [[_ Hrun]|[[_ Hrun]|[(rows & _ & _ & Hrun)|[[_ Hrun]|
        [(rows & df & _ & _ & _ & _ & Hrun)|
         [(rows & df & fig & _ & _ & _ & _ & Hrun)|
          (rows & df & fig & Hfile & Hdf & Hfig & Hlen & Hrun)]]]]]];
    rewrite Hrun in Hend; try discriminate Hend.
  exists rows, df. repeat (split; [done|]).
  by apply fig_time_dated_inv with fig.
Qed.

(** The complete run on a file of 10,000 rows. *)
Lemma run_completes_only_if_large_fs :
  exists rows df,
    large_fs !! "marketplace_dashboard_data.csv" = Some (Csv rows) /\
    to_datetime rows = inr df /\
    (Z.to_nat 10000 <= length df)%nat /\
    Exists (fun r => is_Some (published_month r)) df.
Proof.
  apply (run_completes_only_if large_fs "marketplace_dashboard_data.csv"
           (0 : Z)).
  vm_compute. reflexivity.
Defined.

(** X4. On a file of at least 10,000 convertible rows, one of them with a
    month, the run ends normally and the page shows, in this order, the
    four KPI cards of the table, the line chart of its monthly aggregate,
    the scatter plot of the sample and the box plot of the whole table. *)
Theorem run_complete_page `{RandomState rng} (fs : gmap string File)
    (FILE_PATH : string) (rows : list RawRow) (df : DataFrame) (g : rng) :
  fs !! FILE_PATH = Some (Csv rows) ->
  to_datetime rows = inr df ->
  (Z.to_nat 10000 <= length df)%nat ->
  Exists (fun r => is_Some (published_month r)) df ->
  exists fig sampled,
    fig_time (time_series_data df) = inr fig /\
    fst (plot_data_sample df g) = inr sampled /\
    run fs FILE_PATH g
    = (Value tt, {| rendered := page_complete df fig sampled;
                    np_random := g |}) /\
    dashboard_elements (rendered (snd (run fs FILE_PATH g)))
    = kpi_cards df
      ++ [ PlotlyChart (Line fig);
           PlotlyChart (Scatter (fig_scatter sampled));
           PlotlyChart (Box (fig_box df)) ].
Proof.
  intros Hfile Hdf Hlen Hex.
  assert (df <> []) as Hne by (intros ->; inv Hex).
  rewrite (run_loaded fs FILE_PATH rows df g Hfile Hdf Hne).
  destruct (fig_time_dated df Hex) as [fig Hfig]. rewrite Hfig.
  rewrite plot_data_sample_seeded.
  destruct (Nat.ltb_spec (length df) (Z.to_nat 10000)); [lia|].
  eexists _, _. split; [reflexivity|]. split; [reflexivity|].
  split; [reflexivity|]. apply dashboard_elements_complete.
Qed.

(** A complete run, on a file of 10,000 rows. *)
Lemma run_complete_page_large_fs :
  exists fig sampled,
    fig_time (time_series_data large_table) = inr fig /\
    fst (plot_data_sample large_table (0 : Z)) = inr sampled /\
    run large_fs "marketplace_dashboard_data.csv" (0 : Z)
    = (Value tt, {| rendered := page_complete large_table fig sampled;
                    np_random := 0 |}) /\
    dashboard_elements
      (rendered (snd (run large_fs "marketplace_dashboard_data.csv" (0 : Z))))
    = kpi_cards large_table
      ++ [ PlotlyChart (Line fig);
           PlotlyChart (Scatter (fig_scatter sampled));
           PlotlyChart (Box (fig_box large_table)) ].
Proof.
  apply (run_complete_page large_fs "marketplace_dashboard_data.csv"
           (replicate (Z.to_nat 10000) (example_raw_row (DateText 0)))
           large_table (0 : Z)).
  - apply lookup_singleton_eq.
  - vm_compute. reflexivity.
  - unfold large_table. rewrite length_replicate. lia.
  - apply Exists_exists. exists (example_row (Some 0) 1 1 "US").
    split; [|simpl; eauto].
    apply elem_of_replicate. split; [reflexivity|lia].
Defined.

(** X5. On a table of fewer than 10,000 rows, one of them with a month,
    the run is aborted by the sampler's [ValueError] after the four KPI
    cards and the line chart have been rendered: the page stays without
    scatter plot and box plot. *)
Theorem run_short_table `{RandomState rng} (fs : gmap string File)
    (FILE_PATH : string) (rows : list RawRow) (df : DataFrame) (g : rng) :
  fs !! FILE_PATH = Some (Csv rows) ->
  to_datetime rows = inr df ->
  (length df < Z.to_nat 10000)%nat ->
  Exists (fun r => is_Some (published_month r)) df ->
  exists fig,
    fig_time (time_series_data df) = inr fig /\
    run fs FILE_PATH g
    = (Raised ValueError, {| rendered := page_before_sample df fig;
                             np_random := g |}) /\
    dashboard_elements (rendered (snd (run fs FILE_PATH g)))
    = kpi_cards df ++ [ PlotlyChart (Line fig) ].
Proof.
  intros Hfile Hdf Hlen Hex.
  assert (df <> []) as Hne by (intros ->; inv Hex).
  rewrite (run_loaded fs FILE_PATH rows df g Hfile Hdf Hne).
  destruct (fig_time_dated df Hex) as [fig Hfig]. rewrite Hfig.
  destruct (Nat.ltb_spec (length df) (Z.to_nat 10000)); [|lia].
  exists fig. split; [reflexivity|]. split; reflexivity.
Qed.

(** The run on a file of two rows. *)
Lemma run_short_table_small_fs :
  exists fig,
    fig_time (time_series_data
                [ example_row (Some 0) 1 1 "US"; example_row None 1 1 "US" ])
      = inr fig /\
    run small_fs "marketplace_dashboard_data.csv" (0 : Z)
    = (Raised ValueError,
       {| rendered :=
            page_before_sample
              [ example_row (Some 0) 1 1 "US"; example_row None 1 1 "US" ]
              fig;
          np_random := 0 |}) /\
    dashboard_elements
      (rendered (snd (run small_fs "marketplace_dashboard_data.csv" (0 : Z))))
    = kpi_cards [ example_row (Some 0) 1 1 "US"; example_row None 1 1 "US" ]
      ++ [ PlotlyChart (Line fig) ].
Proof.
  apply (run_short_table small_fs "marketplace_dashboard_data.csv"
           [ example_raw_row (DateText 0); example_raw_row Blank ]
           [ example_row (Some 0) 1 1 "US"; example_row None 1 1 "US" ]
           (0 : Z)).
  - reflexivity.
  - reflexivity.
  - simpl. lia.
  - apply Exists_cons_hd. simpl. eauto.
Defined.

(** X6. On a non-empty table in which no row has a month, the run is
    aborted by an [IndexError] when the line chart's annotation asks for
    the last month: the four KPI cards are on the page, no chart is. *)
Theorem run_without_months `{RandomState rng} (fs : gmap string File)
    (FILE_PATH : string) (rows : list RawRow) (df : DataFrame) (g : rng) :
  fs !! FILE_PATH = Some (Csv rows) ->
  to_datetime rows = inr df ->
  df <> [] ->
  Forall (fun r => published_month r = None) df ->
  run fs FILE_PATH g
  = (Raised IndexError, {| rendered := page_before_line df;
                           np_random := g |}) /\
  dashboard_elements (rendered (snd (run fs FILE_PATH g))) = kpi_cards df.
Proof.
  intros Hfile Hdf Hne Hnone.
  rewrite (run_loaded fs FILE_PATH rows df g Hfile Hdf Hne).
  apply time_series_data_nil in Hnone. rewrite Hnone. simpl.
  split; reflexivity.
Qed.

(** The run on a file whose only row has a blank month. *)
Lemma run_without_months_blank_months_fs :
  run blank_months_fs "marketplace_dashboard_data.csv" (0 : Z)
  = (Raised IndexError,
     {| rendered := page_before_line [ example_row None 1 1 "US" ];
        np_random := 0 |}) /\
  dashboard_elements
    (rendered
       (snd (run blank_months_fs "marketplace_dashboard_data.csv" (0 : Z))))
  = kpi_cards [ example_row None 1 1 "US" ].
Proof.
  apply (run_without_months blank_months_fs "marketplace_dashboard_data.csv"
           [ example_raw_row Blank ] [ example_row None 1 1 "US" ] (0 : Z)).
  - reflexivity.
  - reflexivity.
  - discriminate.
  - repeat constructor.
Defined.

(** X7. A file that exists but holds no data row halts the run like a
    missing file does, but silently: nothing is rendered, not even an
    error message. *)
Theorem run_header_only `{RandomState rng} (fs : gmap string File)
    (FILE_PATH : string) (g : rng) :
  fs !! FILE_PATH = Some (Csv []) ->
  run fs FILE_PATH g = (Stopped, {| rendered := []; np_random := g |}).
Proof. intros Hfile. by apply (run_no_rows fs FILE_PATH []). Qed.

(** The run on a file with a header line only. *)
Lemma run_header_only_header_only_fs :
  run header_only_fs "marketplace_dashboard_data.csv" (0 : Z)
  = (Stopped, {| rendered := []; np_random := 0 |}).
Proof.
  apply (run_header_only header_only_fs "marketplace_dashboard_data.csv").
  reflexivity.
Defined.

Lemma page_before_line_without_error (df : DataFrame) (msg : ErrorMessage) :
  Error msg ∉ page_before_line df.
Proof.
  unfold page_before_line, kpi_cards.
  rewrite !elem_of_app, !elem_of_cons, !elem_of_nil. intuition discriminate.
Qed.

Lemma page_before_sample_without_error (df : DataFrame) (fig : LineFigure)
    (msg : ErrorMessage) :
  Error msg ∉ page_before_sample df fig.
Proof.
  unfold page_before_sample. rewrite elem_of_app. intros [Hin|Hin].
  - by apply page_before_line_without_error in Hin.
  - revert Hin. rewrite !elem_of_cons, !elem_of_nil. intuition discriminate.
Qed.

Lemma page_complete_without_error (df : DataFrame) (fig : LineFigure)
    (sampled : DataFrame) (msg : ErrorMessage) :
  Error msg ∉ page_complete df fig sampled.
Proof.
  unfold page_complete. rewrite elem_of_app. intros [Hin|Hin].
  - by apply page_before_sample_without_error in Hin.
  - revert Hin. rewrite !elem_of_cons, !elem_of_nil. intuition discriminate.
Qed.

(** X8. The page shows an error message exactly when the path does not
    exist, and a run never ends in a [FileNotFoundError]: the existence
    test keeps [read_csv] away from a missing path. *)
Theorem run_error_message_iff_missing `{RandomState rng}
    (fs : gmap string File) (FILE_PATH : string) (g : rng) :
  ((exists msg, Error msg ∈ rendered (snd (run fs FILE_PATH g)))
   <-> fs !! FILE_PATH = None) /\
  fst (run fs FILE_PATH g) <> Raised FileNotFoundError.
Proof.
  destruct (run_cases fs FILE_PATH g)
    as [[Hfile Hrun]|[[Hfile Hrun]|[(rows & Hfile & _ & Hrun)|[[Hfile Hrun]|
        [(rows & df & Hfile & _ & _ & _ & Hrun)|
         [(rows & df & fig & Hfile & _ & _ & _ & Hrun)|
          (rows & df & fig & Hfile & _ & _ & _ & Hrun)]]]]]];
    rewrite Hrun, Hfile; simpl; (split; [|discriminate]).
  - split; [done|]. intros _. eexists. apply list_elem_of_here.
  - split; [|done]. intros [msg Hin]. by apply elem_of_nil in Hin.
  - split; [|done]. intros [msg Hin]. by apply elem_of_nil in Hin.
  - split; [|done]. intros [msg Hin]. by apply elem_of_nil in Hin.
  - split; [|done]. intros [msg Hin].
    by apply page_before_line_without_error in Hin.
  - split; [|done]. intros [msg Hin].
    by apply page_before_sample_without_error in Hin.
  - split; [|done]. intros [msg Hin].
    by apply page_complete_without_error in Hin.
Qed.

(** ** The line chart *)

Lemma sorted_last_max (l : list Z) (x : Z) :
  StronglySorted Z.lt l -> last l = Some x -> forall y, y ∈ l -> y <= x.
Proof.
  intros Hs Hlast y Hy. apply last_Some in Hlast as [l' ->].
  apply StronglySorted_app in Hs as (Hlt & _ & _).
  apply elem_of_app in Hy as [Hy|Hy].
  - assert (y < x); [|lia]. apply Hlt; [done|]. apply list_elem_of_here.
  - apply list_elem_of_singleton in Hy. lia.
Qed.

Lemma fold_max_spec (rest : list Z) (x : Z) :
  fold_left Z.max rest x ∈ x :: rest /\
  forall y, y ∈ x :: rest -> y <= fold_left Z.max rest x.
Proof.
  revert x. induction rest as [|z rest IH]; intros x; simpl.
  - split; [apply list_elem_of_here|].
    intros y Hy. apply list_elem_of_singleton in Hy. lia.
  - destruct (IH (Z.max x z)) as [Hin Hmax]. split.
    + apply elem_of_cons in Hin as [Hin|Hin].
      * rewrite Hin. destruct (Z.max_spec x z) as [[_ ->]|[_ ->]].
        -- apply list_elem_of_further, list_elem_of_here.
        -- apply list_elem_of_here.
      * by do 2 apply list_elem_of_further.
    + intros y Hy.
      assert (Z.max x z <= fold_left Z.max rest (Z.max x z)) as Hxz.
      { apply Hmax, list_elem_of_here. }
      apply elem_of_cons in Hy as [->|Hy]; [lia|].
      apply elem_of_cons in Hy as [->|Hy]; [lia|].
      by apply Hmax, list_elem_of_further.
Qed.

Lemma series_max_spec (col : list Z) :
  col <> [] ->
  series_max col ∈ col /\ forall y, y ∈ col -> y <= series_max col.
Proof. destruct col as [|x rest]; [done|]. intros _. apply fold_max_spec. Qed.

(** X9. When the line chart is built, it plots the whole monthly
    aggregate, its annotation is pinned to the latest month of the table,
    and the annotation's height is nine tenths of the largest monthly
    [job_count] sum. *)
Theorem fig_time_annotation (df : DataFrame) (fig : LineFigure) :
  fig_time (time_series_data df) = inr fig ->
  line_data fig = time_series_data df /\
  annotation_x fig ∈ months df /\
  (forall k, k ∈ months df -> k <= annotation_x fig) /\
  exists top,
    annotation_y fig = (inject_Z top * (9 # 10))%Q /\
    top ∈ (agg_job_count <$> time_series_data df) /\
    forall j, j ∈ (agg_job_count <$> time_series_data df) -> j <= top.
Proof.
  destruct (time_series_data_invariant df) as [Hs Hk _].
  unfold fig_time.
  destruct (last (agg_published_month <$> time_series_data df))
    as [x|] eqn:Hlast; [|done].
  intros Hfig. simplify_eq. simpl.
  split; [done|]. split; [|split].
  - apply Hk. by apply last_Some_elem_of.
  - intros k Hin. apply Hk in Hin. by apply (sorted_last_max _ x Hs).
  - exists (series_max (agg_job_count <$> time_series_data df)).
    split; [done|]. apply series_max_spec.
    intros Hnil. apply fmap_nil_inv in Hnil.
    rewrite Hnil in Hlast. discriminate.
Qed.

(** The line chart of the three-row, two-month table: its annotation sits
    at month 1 and at nine tenths of 30. *)
Lemma fig_time_annotation_three_rows :
  exists fig,
    fig_time (time_series_data three_projects) = inr fig /\
    annotation_x fig = 1 /\
    annotation_y fig = (inject_Z 30 * (9 # 10))%Q /\
    line_data fig = time_series_data three_projects /\
    annotation_x fig ∈ months three_projects.
Proof.
  eexists. split; [reflexivity|]. split; [reflexivity|].
  split; [reflexivity|].
  pose proof (fig_time_annotation three_projects _ eq_refl) as (H1 & H2 & _).
  split; [exact H1|exact H2].
Defined.

(** ** The KPIs and the order of the rows *)

Lemma exact_sum_Permutation (l1 l2 : list Z) :
  l1 ≡ₚ l2 -> exact_sum l1 = exact_sum l2.
Proof. induction 1; simpl in *; lia. Qed.

Lemma sum_int64_Permutation (l1 l2 : list Z) :
  l1 ≡ₚ l2 -> sum_int64 l1 = sum_int64 l2.
Proof.
  intros Hp. by rewrite !sum_int64_wrap, (exact_sum_Permutation l1 l2 Hp).
Qed.

Lemma sorted_position_lt (s : list Q) (k : nat) (a : Q) :
  StronglySorted Qle s -> s !! k = Some a -> (count_lt a s <= k)%nat.
Proof.
  intros Hs Hk.
  pose proof (lookup_lt_Some _ _ _ Hk) as Hlt.
  rewrite <- (take_drop_middle s k a Hk) in Hs.
  apply StronglySorted_app in Hs as (_ & _ & Hr).
  apply StronglySorted_inv in Hr as [_ Hhi].
  unfold count_lt. rewrite <- (take_drop_middle s k a Hk) at 1.
  rewrite filter_app, length_app.
  rewrite (filter_cons_False (fun x => (x < a)%Q)) by apply Qlt_irrefl.
  rewrite (filter_none (fun x => (x < a)%Q) (drop (S k) s)).
  - pose proof (length_filter (fun x => (x < a)%Q) (take k s)).
    rewrite length_take in *. simpl. lia.
  - eapply Forall_impl; [exact Hhi|]. simpl. intros x Hx. lra.
Qed.

(** Two sorted arrangements of the same values agree, position by
    position, up to the equality of rationals. *)
Lemma sorted_Permutation_lookup (s1 s2 : list Q) (k : nat) (a b : Q) :
  StronglySorted Qle s1 -> StronglySorted Qle s2 -> s1 ≡ₚ s2 ->
  s1 !! k = Some a -> s2 !! k = Some b -> (a == b)%Q.
Proof.
  assert (forall (t1 t2 : list Q) (x y : Q),
            StronglySorted Qle t1 -> StronglySorted Qle t2 -> t1 ≡ₚ t2 ->
            t1 !! k = Some x -> t2 !! k = Some y -> ~ (x < y)%Q) as Hnlt.
  { intros t1 t2 x y Ht1 Ht2 Hp Hx Hy Hxy.
    destruct (sorted_position t1 k x Ht1 Hx) as [Hle _].
    pose proof (sorted_position_lt t2 k y Ht2 Hy) as Hlt.
    assert (count_le x t1 <= count_lt y t1)%nat as Hmono.
    { apply length_filter_mono. intros z Hz. lra. }
    assert (count_lt y t1 = count_lt y t2) as Heq.
    { unfold count_lt. by rewrite Hp. }
    lia. }
  intros Hs1 Hs2 Hp Ha Hb.
  pose proof (Hnlt s1 s2 a b Hs1 Hs2 Hp Ha Hb).
  pose proof (Hnlt s2 s1 b a Hs2 Hs1 (symmetry Hp) Hb Ha).
  lra.
Qed.

Lemma median_Permutation (l1 l2 : list Q) :
  l1 ≡ₚ l2 -> same_amount (median l1) (median l2).
Proof.
  intros Hp. unfold median.
  pose proof (StronglySorted_merge_sort Qle l1) as Hs1.
  pose proof (StronglySorted_merge_sort Qle l2) as Hs2.
  assert (merge_sort Qle l1 ≡ₚ merge_sort Qle l2) as Hps.
  { by rewrite !merge_sort_Permutation. }
  set (s1 := merge_sort Qle l1) in *. set (s2 := merge_sort Qle l2) in *.
  clearbody s1 s2.
  assert (length s1 = length s2) as Hlen by by rewrite Hps.
  assert (forall i, same_amount (s1 !! i) (s2 !! i)) as Hat.
  { intros i. destruct (s1 !! i) as [a|] eqn:Ha;
      destruct (s2 !! i) as [b|] eqn:Hb; simpl; [|..|done].
    - by apply (sorted_Permutation_lookup s1 s2 i).
    - apply lookup_lt_Some in Ha. apply lookup_ge_None in Hb. lia.
    - apply lookup_lt_Some in Hb. apply lookup_ge_None in Ha. lia. }
  rewrite <- Hlen. destruct (Nat.odd (length s1)); [apply Hat|].
  pose proof (Hat (length s1 / 2 - 1)%nat) as H1.
  pose proof (Hat (length s1 / 2)%nat) as H2.
  destruct (s1 !! (length s1 / 2 - 1)%nat), (s2 !! (length s1 / 2 - 1)%nat);
    simpl in H1; try done;
    destruct (s1 !! (length s1 / 2)%nat), (s2 !! (length s1 / 2)%nat);
    simpl in H2; try done.
  simpl. by rewrite H1, H2.
Qed.

(** X10. The four KPIs do not depend on the order of the rows: shuffling
    the table leaves the project total and the country count unchanged and
    the two medians equal as numbers. *)
Theorem kpis_row_order (df df' : DataFrame) :
  df ≡ₚ df' ->
  TOTAL_PROJECTS df = TOTAL_PROJECTS df' /\
  TOTAL_CLIENT_COUNTRIES df = TOTAL_CLIENT_COUNTRIES df' /\
  same_amount (AVG_FEE_PER_JOB df) (AVG_FEE_PER_JOB df') /\
  same_amount (MEDIAN_FRICTION df) (MEDIAN_FRICTION df').
Proof.
  intros Hp. split; [|split; [|split]].
  - apply sum_int64_Permutation. by rewrite Hp.
  - unfold TOTAL_CLIENT_COUNTRIES. rewrite !nunique_size.
    f_equal. apply set_eq. intros c. unfold dropna.
    rewrite !elem_of_list_to_set. by rewrite Hp.
  - apply median_Permutation. by rewrite Hp.
  - apply median_Permutation. by rewrite Hp.
Qed.

(** The KPIs of the three-row table and of the table with its first two
    rows swapped. *)
Lemma kpis_row_order_three_rows :
  TOTAL_PROJECTS three_projects = TOTAL_PROJECTS three_projects_swapped /\
  TOTAL_CLIENT_COUNTRIES three_projects
    = TOTAL_CLIENT_COUNTRIES three_projects_swapped /\
  same_amount (AVG_FEE_PER_JOB three_projects)
    (AVG_FEE_PER_JOB three_projects_swapped) /\
  same_amount (MEDIAN_FRICTION three_projects)
    (MEDIAN_FRICTION three_projects_swapped).
Proof.
  apply (kpis_row_order three_projects three_projects_swapped).
  apply perm_swap.
Defined.

(** ** The aggregate and the order of the rows *)

Lemma agg_job_count_by_month (df : DataFrame) :
  agg_job_count <$> time_series_data df
  = (fun k => sum_int64 (job_count <$> rows_of_month k df))
    <$> (agg_published_month <$> time_series_data df).
Proof.
  destruct (time_series_data_invariant df) as [_ _ Hsum].
  rewrite <- list_fmap_compose. apply Forall_fmap_ext_1, Forall_forall.
  intros g Hg. simpl. by destruct (Hsum g Hg).
Qed.

Lemma months_Permutation (df df' : DataFrame) :
  df ≡ₚ df' -> months df = months df'.
Proof.
  intros Hp. apply set_eq. intros k. unfold months, dropna.
  rewrite !elem_of_list_to_set. by rewrite Hp.
Qed.

Lemma time_series_months_Permutation (df df' : DataFrame) :
  df ≡ₚ df' ->
  agg_published_month <$> time_series_data df
  = agg_published_month <$> time_series_data df'.
Proof.
  intros Hp.
  destruct (time_series_data_invariant df) as [Hs Hk _].
  destruct (time_series_data_invariant df') as [Hs' Hk' _].
  apply (StronglySorted_unique_strong Z.lt); [intros; lia|done|done|].
  apply NoDup_Permutation; [by apply StronglySorted_lt_NoDup..|].
  intros k. by rewrite Hk, Hk', (months_Permutation df df' Hp).
Qed.

(** X11. The months and the [job_count] sums of the monthly aggregate do
    not depend on the order of the rows: shuffling the table leaves both
    columns of the aggregate unchanged. *)
Theorem time_series_row_order (df df' : DataFrame) :
  df ≡ₚ df' ->
  agg_published_month <$> time_series_data df
    = agg_published_month <$> time_series_data df' /\
  agg_job_count <$> time_series_data df
    = agg_job_count <$> time_series_data df'.
Proof.
  intros Hp. pose proof (time_series_months_Permutation df df' Hp) as Hk.
  split; [done|].
  rewrite !agg_job_count_by_month, Hk.
  apply Forall_fmap_ext_1, Forall_forall. intros k _.
  apply sum_int64_Permutation. unfold rows_of_month. by rewrite Hp.
Qed.

(** The aggregate of the three-row table and of the table with its first
    two rows swapped. *)
Lemma time_series_row_order_three_rows :
  agg_published_month <$> time_series_data three_projects
    = agg_published_month <$> time_series_data three_projects_swapped /\
  agg_job_count <$> time_series_data three_projects
    = agg_job_count <$> time_series_data three_projects_swapped.
Proof.
  apply (time_series_row_order three_projects three_projects_swapped).
  apply perm_swap.
Defined.

(** ** The median of the price gap *)

Lemma median_within (col : list Q) (lo hi m : Q) :
  Forall (fun x => (lo <= x <= hi)%Q) col ->
  median col = Some m -> (lo <= m <= hi)%Q.
Proof.
  intros Hall. unfold median.
  rewrite <- (merge_sort_Permutation Qle col) in Hall.
  set (s := merge_sort Qle col) in *. clearbody s.
  rewrite Forall_forall in Hall.
  destruct (Nat.odd (length s)).
  - intros Hm. apply Hall. by eapply list_elem_of_lookup_2.
  - destruct (s !! (length s / 2 - 1)%nat) as [a|] eqn:Ha; [|done].
    destruct (s !! (length s / 2)%nat) as [b|] eqn:Hb; [|done].
    intros Hm. simplify_eq.
    apply list_elem_of_lookup_2, Hall in Ha.
    apply list_elem_of_lookup_2, Hall in Hb.
    split.
    + apply Qle_shift_div_l; [reflexivity|]. lra.
    + apply Qle_shift_div_r; [reflexivity|]. lra.
Qed.

(** X12. On a non-empty table [MEDIAN_FRICTION] is a median of the
    [price_gap_abs] column, and it lies within any bounds that hold for
    every price gap of the table. *)
Theorem median_friction_is_median (df : DataFrame) :
  df <> [] ->
  exists m,
    MEDIAN_FRICTION df = Some m /\
    is_median (price_gap_abs <$> df) m /\
    forall lo hi,
      Forall (fun r => (lo <= price_gap_abs r <= hi)%Q) df ->
      (lo <= m <= hi)%Q.
Proof.
  intros Hne.
  destruct (median_is_median (price_gap_abs <$> df)) as (m & Hm & Hmed).
  { by destruct df. }
  exists m. split; [done|]. split; [done|].
  intros lo hi Hall. apply (median_within (price_gap_abs <$> df)); [|done].
  by apply Forall_fmap.
Qed.

(** The friction KPI of the table with the price gaps 1, 2 and 30. *)
Lemma median_friction_is_median_skewed :
  exists m,
    MEDIAN_FRICTION skewed_fees = Some m /\
    is_median (price_gap_abs <$> skewed_fees) m /\
    forall lo hi,
      Forall (fun r => (lo <= price_gap_abs r <= hi)%Q) skewed_fees ->
      (lo <= m <= hi)%Q.
Proof. apply (median_friction_is_median skewed_fees). discriminate. Defined.

(** ** The country count *)

Lemma length_unique `{EqDecision A} (col : list A) :
  (length (unique col) <= length col)%nat.
Proof.
  induction col as [|x col IH]; cbn [unique length]; [lia|].
  apply le_n_S. etransitivity; [apply length_filter|exact IH].
Qed.

Lemma length_dropna {A} (col : list (option A)) :
  (length (dropna col) <= length col)%nat.
Proof.
  unfold dropna. induction col as [|[x|] col IH]; csimpl; lia.
Qed.

Lemma dropna_nil {A} (col : list (option A)) :
  dropna col = [] <-> Forall (fun c => c = None) col.
Proof.
  unfold dropna. induction col as [|[x|] col IH]; csimpl.
  - split; [constructor|done].
  - split; [done|]. intros Hall. by inv Hall.
  - rewrite IH. split; [by constructor|]. intros Hall. by inv Hall.
Qed.

(** X13. [TOTAL_CLIENT_COUNTRIES] never exceeds the number of rows, and
    it is 0 exactly when no row names a country. *)
Theorem total_client_countries_bounds (df : DataFrame) :
  (TOTAL_CLIENT_COUNTRIES df <= length df)%nat /\
  (TOTAL_CLIENT_COUNTRIES df = 0%nat
   <-> Forall (fun r => country r = None) df).
Proof.
  unfold TOTAL_CLIENT_COUNTRIES, nunique. split.
  - pose proof (length_unique (dropna (country <$> df))).
    pose proof (length_dropna (country <$> df)).
    rewrite length_fmap in *. lia.
  - rewrite <- (Forall_fmap country (fun c => c = None)), <- dropna_nil.
    destruct (dropna (country <$> df)); simpl; [done|].
    split; intros; discriminate.
Qed.

(** ** The rows of the sample *)

Lemma take_rows_all {A} (pre l : list A) :
  omap (fun i => (pre ++ l) !! i) (seq (length pre) (length l)) = l.
Proof.
  revert pre. induction l as [|x l IH]; intros pre; [reflexivity|].
  cbn [length seq]. csimpl. rewrite list_lookup_middle by done. simpl.
  f_equal. specialize (IH (pre ++ [x])).
  rewrite <- app_assoc, length_app in IH. simpl in IH.
  by rewrite Nat.add_1_r in IH.
Qed.

Lemma take_rows_Permutation {A} (df : list A) (p : list nat) :
  p ≡ₚ seq 0 (length df) -> take_rows df p ≡ₚ df.
Proof.
  intros Hp. unfold take_rows. rewrite Hp.
  by rewrite <- (take_rows_all [] df) at 2.
Qed.

Lemma take_rows_firstn {A} (df : list A) (p : list nat) (n : nat) :
  p ≡ₚ seq 0 (length df) -> take_rows df (firstn n p) ⊆+ df.
Proof.
  intros Hp. rewrite <- (take_rows_Permutation df p Hp) at 2.
  unfold take_rows. rewrite <- (take_drop n p) at 2.
  rewrite omap_app. by apply submseteq_inserts_r.
Qed.

(** X14. The sample of a table of at least 10,000 rows holds rows of the
    table only, none more often than the table holds it; a table of
    exactly 10,000 rows is sampled whole, in shuffled order. *)
Theorem plot_data_sample_rows `{RandomStateLaws rng} (df : DataFrame)
    (g : rng) :
  (Z.to_nat 10000 <= length df)%nat ->
  exists sampled,
    fst (plot_data_sample df g) = inr sampled /\
    sampled ⊆+ df /\
    (length df = Z.to_nat 10000 -> sampled ≡ₚ df).
Proof.
  intros Hlen. rewrite plot_data_sample_seeded. simpl.
  destruct (Nat.ltb_spec (length df) (Z.to_nat 10000)); [lia|].
  pose proof (permutation_Permutation (seed_rng 42) (length df)) as Hp.
  eexists. split; [reflexivity|]. split.
  - by apply take_rows_firstn.
  - intros Heq. rewrite firstn_all2.
    + by apply take_rows_Permutation.
    + rewrite Hp, length_seq. lia.
Qed.

(** The sample of a table of exactly 10,000 rows. *)
Lemma plot_data_sample_rows_large_table :
  exists sampled,
    fst (plot_data_sample large_table (0 : Z)) = inr sampled /\
    sampled ⊆+ large_table /\
    (length large_table = Z.to_nat 10000 -> sampled ≡ₚ large_table).
Proof.
  apply (plot_data_sample_rows (rng := Z) large_table 0).
  unfold large_table. rewrite length_replicate. lia.
Defined.

(** ** Rows without a month *)

(** X15. A row without a month is left out of every month and changes
    nothing else: the monthly [job_count] sums add up to the project total
    of the rows that have a month, and aggregating those rows alone gives
    the same aggregate. *)
Theorem time_series_totals_of_dated_rows (df : DataFrame) :
  sum_int64 (agg_job_count <$> time_series_data df)
    = TOTAL_PROJECTS (dated_rows df) /\
  time_series_data (dated_rows df) = time_series_data df.
Proof.
  split; [apply time_series_total_jobs|].
  induction df as [|r df IH] using rev_ind; [done|].
  rewrite dated_rows_snoc, time_series_data_snoc.
  destruct (published_month r) as [k|] eqn:Hr; simpl.
  - by rewrite time_series_data_snoc, IH.
  - rewrite app_nil_r, IH. unfold agg_step. by rewrite Hr.
Qed.

(** ** The text of a count card *)

Example format_count_examples :
  format_count 0 = "0" /\
  format_count 999 = "999" /\
  format_count 1234567 = "1,234,567" /\
  format_count (-1234) = "-1,234".
Proof. repeat split. Qed.

(** Beyond 2^53 the card shows the nearest float, not the count. *)
Example format_count_rounds :
  format_count 9007199254740993 = "9,007,199,254,740,992" /\
  format_count 9223372036854775807 = "9,223,372,036,854,775,808".
Proof. split; vm_compute; reflexivity. Qed.

Lemma float_of_int_exact (n : Z) :
  - 9007199254740992 <= n <= 9007199254740992 -> float_of_int n = n.
Proof.
  intros Hn. unfold float_of_int.
  destruct (Z.leb_spec (Z.log2 (Z.abs n) - 52) 0) as [|He]; [done|].
  assert (Z.abs n <= 2 ^ 53) as Ha by (change (2 ^ 53) with 9007199254740992; lia).
  destruct (Z.eq_dec (Z.abs n) (2 ^ 53)) as [Heq|Hne].
  - rewrite Heq.
    change (Z.log2 (2 ^ 53) - 52) with 1.
    change ((2 ^ 53) mod 2 ^ 1) with 0. change (2 ^ (1 - 1)) with 1.
    change (2 ^ 53 / 2 ^ 1) with 4503599627370496. simpl.
    change (2 ^ 53) with 9007199254740992 in Heq. lia.
  - assert (Z.log2 (Z.abs n) < 53); [|lia].
    destruct (Z.eq_dec (Z.abs n) 0) as [H0|H0]; [rewrite H0; simpl; lia|].
    apply Z.log2_lt_pow2; lia.
Qed.

Lemma group_thousands_four (a b c d : ascii) (rest : list ascii) :
  group_thousands (a :: b :: c :: d :: rest)
  = a :: b :: c :: ","%char :: group_thousands (d :: rest).
Proof. reflexivity. Qed.

Lemma filter_group_thousands (l : list ascii) :
  filter (fun c => c <> ","%char) (group_thousands l)
  = filter (fun c => c <> ","%char) l.
Proof.
  assert (forall n (l : list ascii), (length l <= n)%nat ->
            filter (fun c => c <> ","%char) (group_thousands l)
            = filter (fun c => c <> ","%char) l) as Hind.
  { clear l. induction n as [|n IH]; intros l Hl.
    - destruct l; [done|simpl in Hl; lia].
    - destruct l as [|a [|b [|c [|d rest]]]]; try reflexivity.
      rewrite group_thousands_four.
      rewrite !(filter_cons _ a), !(filter_cons _ b), !(filter_cons _ c).
      rewrite (filter_cons_False _ ","%char) by (intros Hc; by apply Hc).
      rewrite (IH (d :: rest)) by (simpl in *; lia). reflexivity. }
  by apply (Hind (length l)).
Qed.

Lemma digits_without_comma (d : Decimal.uint) :
  Forall (fun c => c <> ","%char)
    (list_ascii_of_string (NilEmpty.string_of_uint d)).
Proof. induction d; simpl; constructor; done. Qed.

Lemma filter_all {A} (P : A -> Prop) `{forall x, Decision (P x)} (l : list A) :
  Forall P l -> filter P l = l.
Proof.
  induction 1 as [|x l Hx _ IH]; [reflexivity|].
  rewrite filter_cons_True by done. by rewrite IH.
Qed.

Lemma with_thousands_digits (d : Decimal.uint) :
  string_of_list_ascii
    (filter (fun c => c <> ","%char)
       (list_ascii_of_string (with_thousands (NilZero.string_of_uint d))))
  = NilZero.string_of_uint d.
Proof.
  unfold with_thousands. rewrite list_ascii_of_string_of_list_ascii.
  rewrite filter_reverse, filter_group_thousands, <- filter_reverse.
  rewrite reverse_involutive, filter_all.
  - apply string_of_list_ascii_of_string.
  - destruct d; try apply digits_without_comma. repeat constructor; done.
Qed.

(** X17. For a count of at most 2^53 in absolute value the card shows the
    count itself: dropping the commas and reading the number gives the
    count back. *)
Theorem format_count_round_trip (n : Z) :
  - 9007199254740992 <= n <= 9007199254740992 ->
  parse_count (format_count n) = Some n.
Proof.
  intros Hn. unfold format_count, parse_count.
  rewrite (float_of_int_exact n Hn).
  rewrite <- (DecimalZ.of_to n) at 2.
  destruct n as [|p|p]; simpl Z.to_int; cbv iota beta.
  - reflexivity.
  - rewrite with_thousands_digits.
    change (NilZero.string_of_uint (Pos.to_uint p))
      with (NilZero.string_of_int (Decimal.Pos (Pos.to_uint p))).
    rewrite NilZero.isi; [done| |done].
    intros Hnil. simplify_eq. by apply (Unsigned.to_uint_nonnil p).
  - cbn [list_ascii_of_string].
    rewrite filter_cons_True by done. cbn [string_of_list_ascii].
    rewrite with_thousands_digits.
    change (String "-" (NilZero.string_of_uint (Pos.to_uint p)))
      with (NilZero.string_of_int (Decimal.Neg (Pos.to_uint p))).
    rewrite NilZero.isi; [done|done|].
    intros Hnil. simplify_eq. by apply (Unsigned.to_uint_nonnil p).
Qed.

(** The card of 1,234,567 read back. *)
Lemma format_count_round_trip_example :
  format_count 1234567 = "1,234,567" /\
  parse_count (format_count 1234567) = Some 1234567.
Proof.
  split; [reflexivity|]. apply (format_count_round_trip 1234567). lia.
Defined.

(** ** The range of the project total *)

Lemma wrap_range (z : Z) : Int64.in_range (Int64.wrap z).
Proof.
  unfold Int64.in_range, Int64.wrap, Int64.min_value, Int64.max_value.
  pose proof (Z.mod_pos_bound (z + Int64.half) Int64.modulus eq_refl).
  unfold Int64.modulus, Int64.half in *. lia.
Qed.

(** X18. When every [job_count] cell lies in the signed 64-bit range (so
    that the column is an [int64] column), [TOTAL_PROJECTS] lies in that
    range and differs from the mathematical sum of [job_count] by a
    multiple of 2^64; the [job_count] sums of the monthly aggregate lie in
    that range too. *)
Theorem total_projects_int64 (df : DataFrame) :
  Forall (fun r => Int64.in_range (job_count r)) df ->
  Int64.in_range (TOTAL_PROJECTS df) /\
  (exists q,
     TOTAL_PROJECTS df = exact_sum (job_count <$> df) + q * Int64.modulus) /\
  Forall (fun g => Int64.in_range (agg_job_count g)) (time_series_data df).
Proof.
  intros _. split; [|split].
  - rewrite TOTAL_PROJECTS_wrap. apply wrap_range.
  - rewrite TOTAL_PROJECTS_wrap. unfold Int64.wrap.
    exists (- ((exact_sum (job_count <$> df) + Int64.half) / Int64.modulus)).
    pose proof (Z.div_mod (exact_sum (job_count <$> df) + Int64.half)
                  Int64.modulus) as Hdm.
    unfold Int64.modulus, Int64.half in *. lia.
  - destruct (time_series_data_invariant df) as [_ _ Hsum].
    apply Forall_forall. intros g Hg. destruct (Hsum g Hg) as [-> _].
    rewrite sum_int64_wrap. apply wrap_range.
Qed.

(** The table whose two rows hold 2^62 projects each: the total is 2^63
    less 2^64. *)
Lemma total_projects_int64_overflowing :
  Int64.in_range (TOTAL_PROJECTS overflowing_projects) /\
  (exists q,
     TOTAL_PROJECTS overflowing_projects
     = exact_sum (job_count <$> overflowing_projects) + q * Int64.modulus) /\
  Forall (fun g => Int64.in_range (agg_job_count g))
    (time_series_data overflowing_projects).
Proof.
  apply (total_projects_int64 overflowing_projects).
  repeat constructor; vm_compute; discriminate.
Defined.
